(** * Registration / login demo: the token issuer and the client request
    coordinator.

    Two parts of the repository are embedded here.

    - [Backend]: the NestJS authentication service
      (AuthenticationService.registerUser / loginUser), its controller
      routes, the two DTO classes and the bootstrap of main.ts.
    - [Client]: the axios response interceptor of the React front end
      (useAxiosInterceptorClient in hook/useAuth.js), with its process-wide
      [isRefreshing] flag and [failedQueue].

    The user collection is a list of documents, JSON objects and the
    browser's localStorage are finite maps, and the asynchronous client is an
    event-driven state machine: a handler runs up to its first suspension
    point, the frames suspended at an [await] are kept in the state. *)

From Stdlib Require Import Ascii String.
From stdpp Require Import base strings list gmap.

Local Open Scope string_scope.
Local Open Scope list_scope.

(* ===================================================================== *)
(** * Backend *)
(* ===================================================================== *)

Module Backend.

(** ** HTTP exceptions of @nestjs/common as the service throws them *)

Inductive ErrorMessage :=
| Msg (s : string)            (* a single message *)
| Msgs (l : list string).     (* the message array of a failed validation *)

Record HttpException := { statusCode : nat; message : ErrorMessage }.

Definition ConflictException (m : string) : HttpException :=
  {| statusCode := 409; message := Msg m |}.
Definition UnauthorizedException (m : string) : HttpException :=
  {| statusCode := 401; message := Msg m |}.
Definition BadRequestException (m : list string) : HttpException :=
  {| statusCode := 400; message := Msgs m |}.

(** An async service method either returns a value or throws. *)
Inductive Result (A : Type) :=
| Ok (a : A)
| Err (e : HttpException).
Arguments Ok {A} a.
Arguments Err {A} e.

(** ** Request bodies and documents *)

Module RegisterUserDto.
Record t := mk { email : string; password : string; name : option string }.
End RegisterUserDto.

Module LoginUserDto.
Record t := mk { email : string; password : string }.
End LoginUserDto.

(** A document of the user collection: the fields the service writes, and
    the _id that the model constructor assigns. *)
Module User.
Record t := mk
  { _id : string; email : string; passwordHash : string; name : option string }.
End User.

Module JwtPayload.
Record t := mk
  { name : option string; iat : option nat; email : string; sub : string }.
End JwtPayload.

(** ** Libraries the service calls *)

(** bcrypt: [hash data rounds] draws a salt, made explicit here. *)
Class Bcrypt := {
  bcrypt_hash : string -> nat -> string -> string;
  bcrypt_compare : string -> string -> bool
}.

(** JwtService: [sign] stamps the payload with the issue time; [decode]
    reads a token back. *)
Class JwtService := {
  jwt_sign : JwtPayload.t -> nat -> string;
  jwt_decode : string -> option JwtPayload.t
}.

(** What the service relies on from the two libraries: a password
    verifies against its own hash, and a hash is not the password. *)
Class BcryptSpec (B : Bcrypt) : Prop := {
  compare_hash : forall p r s, bcrypt_compare p (bcrypt_hash p r s) = true;
  hash_not_plain : forall p r s, bcrypt_hash p r s <> p
}.

(** bcrypt reads the first 72 bytes of the data it is given and no more. *)
Definition bcrypt_key (data : string) : string := String.substring 0 72 data.

Class BcryptTruncates (B : Bcrypt) : Prop := {
  compare_key : forall q h, bcrypt_compare q h = bcrypt_compare (bcrypt_key q) h;
  hash_key : forall p r s, bcrypt_hash p r s = bcrypt_hash (bcrypt_key p) r s
}.

Class JwtSpec (J : JwtService) : Prop := {
  decode_sign : forall p now,
    jwt_decode (jwt_sign p now) =
    Some (JwtPayload.mk (JwtPayload.name p) (Some now) (JwtPayload.email p) (JwtPayload.sub p))
}.

(** ** The user model *)

(** userModel.findOne({ email }): the first document with that email. *)
Definition findOne (email : string) (users : list User.t) : option User.t :=
  List.find (fun u => bool_decide (User.email u = email)) users.

(** document.toJSON(): the document as a plain object. *)
Definition toJSON (u : User.t) : gmap string string :=
  let o : gmap string string :=
    <["_id" := User._id u]>
      (<["email" := User.email u]>
         (<["passwordHash" := User.passwordHash u]> ∅)) in
  match User.name u with
  | Some n => <["name" := n]> o
  | None => o
  end.

(** What a run of registerUser draws from its environment: the salt of
    bcrypt.hash and the _id of the new document. *)
Record Fresh := { salt : string; objectId : string }.

Section Service.
Context {B : Bcrypt} {J : JwtService}.

(** AuthenticationService.registerUser *)
Definition registerUser (users : list User.t) (fresh : Fresh)
    (registrationData : RegisterUserDto.t)
  : Result (gmap string string) * list User.t :=
  let email := RegisterUserDto.email registrationData in
  let password := RegisterUserDto.password registrationData in
  let name := RegisterUserDto.name registrationData in
  match findOne email users with
  | Some _ => (Err (ConflictException "User with this email already exists"), users)
  | None =>
      let hashedPassword := bcrypt_hash password 10 (salt fresh) in
      let newUser := User.mk (objectId fresh) email hashedPassword name in
      let savedUser := newUser in
      (Ok (delete "passwordHash" (toJSON savedUser)), users ++ [savedUser])
  end.

Record LoginResult := { user : gmap string string; accessToken : string }.

(** AuthenticationService.loginUser; [now] is the clock read by sign. *)
Definition loginUser (users : list User.t) (now : nat)
    (loginData : LoginUserDto.t) : Result LoginResult :=
  let email := LoginUserDto.email loginData in
  let password := LoginUserDto.password loginData in
  match findOne email users with
  | None => Err (UnauthorizedException "Invalid credentials")
  | Some user =>
      let isPasswordValid := bcrypt_compare password (User.passwordHash user) in
      if negb isPasswordValid then
        Err (UnauthorizedException "Invalid credentials")
      else
        let payload :=
          JwtPayload.mk (User.name user) None (User.email user) (User._id user) in
        let accessToken := jwt_sign payload now in
        Ok {| user := delete "passwordHash" (toJSON user);
              accessToken := accessToken |}
  end.

End Service.

(** ** DTO classes and pipes *)

(** validator.js, behind the IsEmail decorator. *)
Class Validator := { isEmail : string -> bool }.

Section Validation.
Context {V : Validator}.

(** RegisterUserDto: the constraint violations of a body, as the
    decorators of the class declare them (IsString holds of every
    [string]; name is IsOptional).  Fields come in the order of the class;
    within a field the decorator written last is reported first. *)
Definition RegisterUserDto_validate (d : RegisterUserDto.t) : list string :=
  ((if bool_decide (RegisterUserDto.email d = "") then ["email should not be empty"]
    else []) ++
   (if isEmail (RegisterUserDto.email d) then []
    else ["Email must be a valid email address."]) ++
   (if Nat.ltb (String.length (RegisterUserDto.password d)) 8
    then ["Password must be at least 8 characters long."] else []) ++
   (if bool_decide (RegisterUserDto.password d = "") then ["password should not be empty"]
    else [])).

(** LoginUserDto *)
Definition LoginUserDto_validate (d : LoginUserDto.t) : list string :=
  ((if bool_decide (LoginUserDto.email d = "") then ["email should not be empty"]
    else []) ++
   (if isEmail (LoginUserDto.email d) then []
    else ["Email must be a valid email address."]) ++
   (if Nat.ltb (String.length (LoginUserDto.password d)) 1
    then ["Password cannot be empty."] else []) ++
   (if bool_decide (LoginUserDto.password d = "") then ["password should not be empty"]
    else [])).
End Validation.

(** The only pipe that reads the decorators of a DTO class. *)
Inductive Pipe := ValidationPipe.

(** ValidationPipe.transform on a body whose violations are [errors]. *)
Definition transform (p : Pipe) (errors : list string) : option HttpException :=
  match p, errors with
  | ValidationPipe, [] => None
  | ValidationPipe, _ :: _ => Some (BadRequestException errors)
  end.

(** The pipes bound to a handler run in order; the first that throws wins. *)
Fixpoint run_pipes (ps : list Pipe) (errors : list string) : option HttpException :=
  match ps with
  | [] => None
  | p :: ps' =>
      match transform p errors with
      | Some e => Some e
      | None => run_pipes ps' errors
      end
  end.

(** ** Bootstrap and wiring *)

(** main.ts, bootstrap(): NestFactory.create(AppModule), enableCors and
    listen.  No pipe is bound with useGlobalPipes. *)
Record NestApplication := {
  cors_origin : string;
  cors_credentials : bool;
  globalPipes : list Pipe;
  port : nat
}.

Definition truthy_or (o : option string) (d : string) : string :=
  match o with
  | Some s => if bool_decide (s = "") then d else s
  | None => d
  end.

Definition bootstrap (FRONTEND_URL : option string) (PORT : option nat) : NestApplication :=
  {| cors_origin := truthy_or FRONTEND_URL "*";
     cors_credentials := true;
     globalPipes := [];
     port := match PORT with Some (S n) => S n | _ => 4000 end |}.

(** Pipes bound by an APP_PIPE provider (AppModule lists none, and
    AuthenticationModule provides AuthenticationService and JwtStrategy
    only) and by UsePipes on AuthenticationController or its handlers
    (none). *)
Definition modulePipes : list Pipe := [].
Definition controllerPipes : list Pipe := [].

Definition boundPipes (app : NestApplication) : list Pipe :=
  globalPipes app ++ modulePipes ++ controllerPipes.

(** ** AuthenticationController *)

Inductive Method := GET | POST.
Inductive Handler := register | login | refresh | getProfile.

(** Controller('authentication') with its Post and Get decorators. *)
Definition route (m : Method) (path : string) : option Handler :=
  match m with
  | POST =>
      if bool_decide (path = "/authentication/register") then Some register
      else if bool_decide (path = "/authentication/login") then Some login
      else if bool_decide (path = "/authentication/refresh") then Some refresh
      else None
  | GET =>
      if bool_decide (path = "/authentication/profile") then Some getProfile
      else None
  end.

Section Controller.
Context {B : Bcrypt} {J : JwtService} {V : Validator}.

(** POST register: the pipes [ps] bound to the handler see the body
    first, then the handler passes it to the service. *)
Definition post_register (ps : list Pipe) (users : list User.t) (fresh : Fresh)
    (registrationData : RegisterUserDto.t)
  : Result (gmap string string) * list User.t :=
  match run_pipes ps (RegisterUserDto_validate registrationData) with
  | Some e => (Err e, users)
  | None => registerUser users fresh registrationData
  end.

(** POST login *)
Definition post_login (ps : list Pipe) (users : list User.t) (now : nat)
    (loginData : LoginUserDto.t) : Result LoginResult :=
  match run_pipes ps (LoginUserDto_validate loginData) with
  | Some e => Err e
  | None => loginUser users now loginData
  end.

End Controller.

(** What NestJS answers when a handler throws anything but an
    HttpException. *)
Definition InternalServerError : HttpException :=
  {| statusCode := 500; message := Msg "Internal server error" |}.

(** POST refresh: the handler takes refreshToken out of the body and
    calls this.authService.refreshToken with it.  AuthenticationService
    defines registerUser and loginUser and no other method, so the call
    throws a TypeError, whatever the body holds. *)
Definition post_refresh (refreshToken : string) : Result string :=
  Err InternalServerError.

(** The status of the response: a handler that returns answers 201 when it
    is a Post handler and 200 otherwise, no handler carrying an HttpCode
    decorator; a thrown exception answers with its own status. *)
Definition status_of {A : Type} (m : Method) (r : Result A) : nat :=
  match r with
  | Ok _ => match m with POST => 201 | GET => 200 end
  | Err e => statusCode e
  end.

(** ** Calls to the service, one after the other *)

Inductive Call :=
| Register (fresh : Fresh) (d : RegisterUserDto.t)
| Login (now : nat) (d : LoginUserDto.t).

Section Runs.
Context {B : Bcrypt} {J : JwtService}.

Definition call (users : list User.t) (c : Call) : list User.t :=
  match c with
  | Register fresh d => snd (registerUser users fresh d)
  | Login now d => users
  end.

Definition calls (users : list User.t) (cs : list Call) : list User.t :=
  fold_left call cs users.
End Runs.

End Backend.

(* ===================================================================== *)
(** * Client request coordinator *)
(* ===================================================================== *)

Module Client.

Definition TOKEN_KEY : string := "authToken".

(** ** Values *)

(** The values a token variable takes in the interceptor: a string, or
    undefined (no accessToken in the refresh response), or null (the default
    of processQueue's second parameter). *)
Inductive Token := Str (s : string) | Undefined | Null.

(** String conversion, as done by a template literal and by setItem. *)
Definition template (t : Token) : string :=
  match t with
  | Str s => s
  | Undefined => "undefined"
  | Null => "null"
  end.

Definition property (o : option string) : Token :=
  match o with
  | Some s => Str s
  | None => Undefined
  end.

(** Truthiness of a string that may be missing. *)
Definition truthy (o : option string) : bool :=
  match o with
  | Some s => negb (bool_decide (s = ""))
  | None => false
  end.

(** The request config: the fields the interceptors read and write. *)
Record RequestConfig := {
  method : string;
  url : string;
  Authorization : option string;    (* config.headers.Authorization *)
  _retry : bool                     (* a missing flag reads as false *)
}.

Definition set_Authorization (a : option string) (c : RequestConfig) : RequestConfig :=
  {| method := method c; url := url c; Authorization := a; _retry := _retry c |}.
Definition set__retry (b : bool) (c : RequestConfig) : RequestConfig :=
  {| method := method c; url := url c; Authorization := Authorization c; _retry := b |}.

Record AxiosError := {
  config : RequestConfig;
  status : option nat;              (* error.response?.status *)
  message : string
}.

(** Who waits for a request on the wire: application code holding the
    promise numbered [k], or the interceptor frame suspended at
    [await axiosInstance.post('/refresh-token')], which holds the request it
    was handling and the promise it will settle. *)
Inductive Caller :=
| App (k : nat)
| Frame (originalRequest : RequestConfig) (k : nat).

Record InFlight := { request : RequestConfig; awaiting : Caller }.

(** An entry of failedQueue: the resolve/reject pair of the promise made
    when queueing; its then-callback closes over the request [waiting] and
    the chain ends in the promise numbered [promise]. *)
Record Deferred := { waiting : RequestConfig; promise : nat }.

Inductive Settlement :=
| Resolved (data : gmap string string)
| Rejected (error : AxiosError).

(** ** State of the client process *)

Record State := {
  isRefreshing : bool;
  failedQueue : list Deferred;
  localStorage : gmap string string;
  isAuthenticated : bool;
  user : option (gmap string string);
  activeTab : string;
  notice : string * string;              (* message, messageType *)
  wire : list InFlight;                  (* dispatched, not yet answered *)
  sent : list RequestConfig;             (* every dispatch, oldest first *)
  settled : list (nat * Settlement)      (* application promises settled *)
}.

Definition set_isRefreshing (b : bool) (st : State) : State :=
  {| isRefreshing := b; failedQueue := failedQueue st;
     localStorage := localStorage st; isAuthenticated := isAuthenticated st;
     user := user st; activeTab := activeTab st; notice := notice st;
     wire := wire st; sent := sent st; settled := settled st |}.
Definition set_failedQueue (q : list Deferred) (st : State) : State :=
  {| isRefreshing := isRefreshing st; failedQueue := q;
     localStorage := localStorage st; isAuthenticated := isAuthenticated st;
     user := user st; activeTab := activeTab st; notice := notice st;
     wire := wire st; sent := sent st; settled := settled st |}.
Definition set_localStorage (m : gmap string string) (st : State) : State :=
  {| isRefreshing := isRefreshing st; failedQueue := failedQueue st;
     localStorage := m; isAuthenticated := isAuthenticated st;
     user := user st; activeTab := activeTab st; notice := notice st;
     wire := wire st; sent := sent st; settled := settled st |}.
Definition set_auth (a : bool) (u : option (gmap string string)) (tab : string)
    (st : State) : State :=
  {| isRefreshing := isRefreshing st; failedQueue := failedQueue st;
     localStorage := localStorage st; isAuthenticated := a;
     user := u; activeTab := tab; notice := notice st;
     wire := wire st; sent := sent st; settled := settled st |}.
Definition set_notice (n : string * string) (st : State) : State :=
  {| isRefreshing := isRefreshing st; failedQueue := failedQueue st;
     localStorage := localStorage st; isAuthenticated := isAuthenticated st;
     user := user st; activeTab := activeTab st; notice := n;
     wire := wire st; sent := sent st; settled := settled st |}.
Definition set_wire (w : list InFlight) (st : State) : State :=
  {| isRefreshing := isRefreshing st; failedQueue := failedQueue st;
     localStorage := localStorage st; isAuthenticated := isAuthenticated st;
     user := user st; activeTab := activeTab st; notice := notice st;
     wire := w; sent := sent st; settled := settled st |}.
Definition set_sent (l : list RequestConfig) (st : State) : State :=
  {| isRefreshing := isRefreshing st; failedQueue := failedQueue st;
     localStorage := localStorage st; isAuthenticated := isAuthenticated st;
     user := user st; activeTab := activeTab st; notice := notice st;
     wire := wire st; sent := l; settled := settled st |}.
Definition set_settled (l : list (nat * Settlement)) (st : State) : State :=
  {| isRefreshing := isRefreshing st; failedQueue := failedQueue st;
     localStorage := localStorage st; isAuthenticated := isAuthenticated st;
     user := user st; activeTab := activeTab st; notice := notice st;
     wire := wire st; sent := sent st; settled := l |}.

(** The page as it loads: isAuthenticated and activeTab are initialised
    from the stored token. *)
Definition init (stored : gmap string string) : State :=
  let authed := truthy (stored !! TOKEN_KEY) in
  {| isRefreshing := false; failedQueue := [];
     localStorage := stored; isAuthenticated := authed;
     user := None; activeTab := if authed then "profile" else "login";
     notice := ("", "");
     wire := []; sent := []; settled := [] |}.

(** ** useAuthLogic and useMessage: the handlers the interceptor is given *)

Definition setAuthState (newAccessToken : string) (userData : gmap string string)
    (st : State) : State :=
  set_auth true (Some userData) "profile"
    (set_localStorage (<[TOKEN_KEY := newAccessToken]> (localStorage st)) st).

(** queryClient.clear() empties a cache that is not part of this state. *)
Definition clearAuthState (st : State) : State :=
  set_auth false None "login"
    (set_localStorage (delete TOKEN_KEY (localStorage st)) st).

(** The five-second timer that blanks the message is not modelled. *)
Definition displayMessage (msg type : string) (st : State) : State :=
  set_notice (msg, type) st.

(** ** The axios instance *)

(** Interceptor 1: attach the stored token unless a header is present. *)
Definition requestInterceptor (st : State) (config : RequestConfig) : RequestConfig :=
  match localStorage st !! TOKEN_KEY with
  | Some token =>
      if truthy (Some token) && negb (truthy (Authorization config))
      then set_Authorization (Some ("Bearer " +:+ token)) config
      else config
  | None => config
  end.

(** axiosInstance(config): through the request interceptor onto the wire. *)
Definition dispatch (k : Caller) (config : RequestConfig) (st : State) : State :=
  let config := requestInterceptor st config in
  set_sent (sent st ++ [config])
    (set_wire (wire st ++ [{| request := config; awaiting := k |}]) st).

(** An application promise settles. *)
Definition settle (k : nat) (o : Settlement) (st : State) : State :=
  set_settled (settled st ++ [(k, o)]) st.

(** What settling the promise of one queue entry leads to.  A rejected
    entry rejects its promise through the catch of the chain; a resolved
    entry runs the then-callback: header, _retry, and the request is sent
    again. *)
Definition release (error : option AxiosError) (token : Token)
    (st : State) (prom : Deferred) : State :=
  match error with
  | Some e => settle (promise prom) (Rejected e) st
  | None =>
      let originalRequest :=
        set__retry true
          (set_Authorization (Some ("Bearer " +:+ template token)) (waiting prom)) in
      dispatch (App (promise prom)) originalRequest st
  end.

(** A parameter declared [token = null]: the default stands in for an
    argument that is undefined or left out. *)
Definition or_null (token : Token) : Token :=
  match token with
  | Undefined => Null
  | _ => token
  end.

(** processQueue(error, token = null).  The forEach settles the promise of
    every entry and the queue is emptied.  The callbacks chained on those
    promises run as jobs, in queue order, once the code that called
    processQueue has run to its end: the result is the state with the queue
    emptied, together with those jobs, to be run on the state that code
    leaves. *)
Definition processQueue (error : option AxiosError) (token : Token) (st : State)
  : State * (State -> State) :=
  let token := or_null token in
  let jobs := fun st' => fold_left (release error token) (failedQueue st) st' in
  (set_failedQueue [] st, jobs).

(** The config of axiosInstance.post('/refresh-token'). *)
Definition refreshRequest : RequestConfig :=
  {| method := "post"; url := "/refresh-token"; Authorization := None; _retry := false |}.

(** Interceptor 2, the rejected handler, run for [error] up to its first
    suspension.  [k] is the promise of the failed request.  The result is
    the error the handler rejects with, or None while its promise stays
    pending (queued, or suspended at the await). *)
Definition responseInterceptor (k : nat) (error : AxiosError) (st : State)
  : State * option AxiosError :=
  let originalRequest := config error in
  if bool_decide (status error = Some 401) && negb (_retry originalRequest) then
    if bool_decide (url originalRequest = "/refresh-token")
       || bool_decide (url originalRequest = "/login") then
      (clearAuthState st, Some error)
    else if isRefreshing st then
      (set_failedQueue
         (failedQueue st ++ [{| waiting := originalRequest; promise := k |}]) st,
       None)
    else
      let originalRequest := set__retry true originalRequest in
      let st := set_isRefreshing true st in
      (dispatch (Frame originalRequest k) refreshRequest st, None)
  else (st, Some error).

(** The frame resumes after the await: the rest of the try block. *)
Definition refresh_fulfilled (originalRequest : RequestConfig) (k : nat)
    (refreshResponse : gmap string string) (st : State) : State :=
  let newAccessToken := property (refreshResponse !! "accessToken") in
  let st := set_localStorage
              (<[TOKEN_KEY := template newAccessToken]> (localStorage st)) st in
  let st := set_isRefreshing false st in
  let '(st, jobs) := processQueue None newAccessToken st in
  let originalRequest :=
    set_Authorization (Some ("Bearer " +:+ template newAccessToken)) originalRequest in
  jobs (dispatch (App k) originalRequest st).

(** The frame resumes after the await: the catch block.  processQueue is
    called with the error alone. *)
Definition refresh_rejected (originalRequest : RequestConfig) (k : nat)
    (refreshError : AxiosError) (st : State) : State :=
  let st := set_isRefreshing false st in
  let '(st, jobs) := processQueue (Some refreshError) Undefined st in
  let st := clearAuthState st in
  let st := displayMessage "Session expired. Please log in again." "error" st in
  jobs (settle k (Rejected refreshError) st).

(** ** Events *)

Inductive Reply :=
| Success (data : gmap string string)
| Failure (status : option nat) (message : string).

Inductive Event :=
| Call (k : nat) (method url : string)
    (* application code sends a request through apiCall or
       axiosInstance.post; every call site passes method, url and data
       only, so the config starts without header and without _retry *)
| Respond (i : nat) (r : Reply)
    (* the i-th request on the wire is answered *)
| LoggedIn (accessToken : string) (userData : gmap string string)
    (* loginMutation.onSuccess *)
| LoggedOut.
    (* the finally block of handleLogout *)

Definition step (st : State) (ev : Event) : State :=
  match ev with
  | Call k m u =>
      dispatch (App k)
        {| method := m; url := u; Authorization := None; _retry := false |} st
  | Respond i r =>
      match wire st !! i with
      | None => st
      | Some f =>
          let st := set_wire (delete i (wire st)) st in
          match r, awaiting f with
          | Success data, App k => settle k (Resolved data) st
          | Success data, Frame originalRequest k =>
              refresh_fulfilled originalRequest k data st
          | Failure s m, App k =>
              let error := {| config := request f; status := s; message := m |} in
              match responseInterceptor k error st with
              | (st, Some e) => settle k (Rejected e) st
              | (st, None) => st
              end
          | Failure s m, Frame originalRequest k =>
              (* the refresh request passes through the same interceptor;
                 its rejection is what the await of the frame throws *)
              let error := {| config := request f; status := s; message := m |} in
              match responseInterceptor k error st with
              | (st, Some refreshError) =>
                  refresh_rejected originalRequest k refreshError st
              | (st, None) => st
                  (* never taken for a request to /refresh-token, see
                     responseInterceptor_refresh_exchange *)
              end
          end
      end
  | LoggedIn accessToken userData =>
      displayMessage "Login successful! Welcome." "success"
        (setAuthState accessToken userData st)
  | LoggedOut =>
      displayMessage "Logged out successfully." "success" (clearAuthState st)
  end.

Definition run (st : State) (evs : list Event) : State := fold_left step evs st.

(** ** Observations *)

Definition is_refresh (f : InFlight) : bool :=
  match awaiting f with
  | Frame _ _ => true
  | App _ => false
  end.

(** Refresh exchanges in flight. *)
Definition refreshes_in_flight (st : State) : nat :=
  length (List.filter is_refresh (wire st)).

Definition is_auth_endpoint (c : RequestConfig) : bool :=
  bool_decide (url c = "/refresh-token") || bool_decide (url c = "/login").

(** A request sent again with [token]: the header is replaced and the
    request is marked retried. *)
Definition replay (token : string) (c : RequestConfig) : RequestConfig :=
  set__retry true (set_Authorization (Some ("Bearer " +:+ token)) c).

Definition replayed (token : string) (d : Deferred) : InFlight :=
  {| request := replay token (waiting d); awaiting := App (promise d) |}.

(** [unauthorized st rs st']: starting in [st], requests on the wire that
    application code waits for, none to an auth endpoint and none marked
    retried, are answered with a 401 one after the other; [rs] lists them
    in that order, each with its promise, and [st'] is the state reached. *)
Inductive unauthorized : State -> list Deferred -> State -> Prop :=
| unauthorized_nil st : unauthorized st [] st
| unauthorized_cons st i f k m rs st' :
    wire st !! i = Some f ->
    awaiting f = App k ->
    is_auth_endpoint (request f) = false ->
    _retry (request f) = false ->
    unauthorized (step st (Respond i (Failure (Some 401) m))) rs st' ->
    unauthorized st ({| waiting := request f; promise := k |} :: rs) st'.

(** ** Invariant of the coordinator *)

(** A request on the wire is either the refresh exchange, posted to
    /refresh-token and not marked retried, on behalf of a request that is
    not to an auth endpoint; or a request of the application, which is not
    marked retried when it goes to an auth endpoint. *)
Definition wire_ok (f : InFlight) : Prop :=
  match awaiting f with
  | Frame originalRequest _ =>
      url (request f) = "/refresh-token" /\ _retry (request f) = false /\
      is_auth_endpoint originalRequest = false
  | App _ => is_auth_endpoint (request f) = true -> _retry (request f) = false
  end.

Record wf (st : State) : Prop := {
  wf_count : refreshes_in_flight st = if isRefreshing st then 1 else 0;
  wf_idle : isRefreshing st = false -> failedQueue st = [];
  wf_wire : Forall wire_ok (wire st);
  wf_queue : Forall (fun d => is_auth_endpoint (waiting d) = false) (failedQueue st)
}.

End Client.

(* ===================================================================== *)
(** * A small implementation of the two libraries

    It meets [BcryptSpec] and [JwtSpec], so the assumptions the theorems
    make on bcrypt and on the JWT service can be met together. *)
(* ===================================================================== *)

Module Toy.
Import Backend.

Fixpoint bits (p : positive) : string :=
  match p with
  | xH => ""
  | xO q => String "0"%char (bits q)
  | xI q => String "1"%char (bits q)
  end.

Fixpoint unbits (s : string) : positive :=
  match s with
  | EmptyString => xH
  | String c r => if bool_decide (c = "1"%char) then xI (unbits r) else xO (unbits r)
  end.

#[export] Instance bcrypt : Bcrypt := {|
  bcrypt_hash p _ _ := String "#"%char p;
  bcrypt_compare q h := bool_decide (h = String "#"%char q)
|}.

(** A bcrypt that, like the package, reads 72 bytes of the password.  The
    first character of a hash differs from that of the password. *)
Definition hash72 (p : string) : string :=
  String (match p with
          | String c _ => if bool_decide (c = "#"%char) then "$"%char else "#"%char
          | EmptyString => "#"%char
          end) (bcrypt_key p).

Definition bcrypt72 : Bcrypt := {|
  bcrypt_hash p _ _ := hash72 p;
  bcrypt_compare q h := bool_decide (h = hash72 q)
|}.

#[export] Instance jwt : JwtService := {|
  jwt_sign p now :=
    bits (encode (JwtPayload.name p, now, JwtPayload.email p, JwtPayload.sub p));
  jwt_decode t :=
    match decode (unbits t) with
    | Some (n, now, e, s) => Some (JwtPayload.mk n (Some now) e s)
    | None => None
    end
|}.

#[export] Instance validator : Validator := {|
  isEmail s := negb (bool_decide (s = ""))
|}.

End Toy.

(* ===================================================================== *)
(** * Scenarios

    Concrete runs of the two components, used further down to exercise the
    theorems. *)
(* ===================================================================== *)

Module BackendScenario.
Import Backend.

(** Two passwords of 73 characters that differ in the last one only. *)
Definition long_prefix : string :=
  "012345678901234567890123456789012345678901234567890123456789012345678901".
Definition long_password : string := long_prefix +:+ "A".
Definition other_password : string := long_prefix +:+ "B".

(** b@x.com registers with [long_password], checked by a bcrypt that reads
    72 bytes. *)
Definition bob : RegisterUserDto.t := RegisterUserDto.mk "b@x.com" long_password None.
Definition users_after_bob : list User.t :=
  snd (registerUser (B := Toy.bcrypt72) [] {| salt := "s3"; objectId := "u3" |} bob).

(** a@x.com registers with password1. *)
Definition alice : RegisterUserDto.t := RegisterUserDto.mk "a@x.com" "password1" None.
Definition first_id : Fresh := {| salt := "s1"; objectId := "u1" |}.
Definition second_id : Fresh := {| salt := "s2"; objectId := "u2" |}.

Definition users_after_alice : list User.t :=
  snd (registerUser (B := Toy.bcrypt) [] first_id alice).

End BackendScenario.

Module ClientScenario.
Import Client.

(** A page holding the token "old" sends two requests. *)
Definition two_calls : list Event :=
  [Call 1 "GET" "/profile"; Call 2 "GET" "/orders"].

Definition get (u : string) (retried : bool) : RequestConfig :=
  {| method := "GET"; url := u; Authorization := Some "Bearer old"; _retry := retried |}.

Definition page : State := run (init {[ TOKEN_KEY := "old" ]}) two_calls.

(** Both are answered 401. *)
Definition page_401 : State :=
  run page [Respond 0 (Failure (Some 401) "Unauthorized");
            Respond 0 (Failure (Some 401) "Unauthorized")].

(** The refresh succeeds and both requests are sent again, marked retried. *)
Definition page_retried : State :=
  run page_401 [Respond 0 (Success {[ "accessToken" := "new" ]})].

End ClientScenario.

(* ===================================================================== *)
(** * Further parts of the two applications *)
(* ===================================================================== *)

(** ** AuthenticationController.getProfile *)

Module Profile.
Import Backend.

Record AuthenticatedUser := {
  sub : string;
  email : string;
  name : string;
  iat : option nat
}.

Record Response := { message : string; authenticatedUser : AuthenticatedUser }.

(** [user] is req.user, the token payload the guard attached to the
    request.  A name that is missing or empty is shown as N/A. *)
Definition getProfile (user : JwtPayload.t) : Response :=
  {| message := "Access granted to protected route.";
     authenticatedUser :=
       {| sub := JwtPayload.sub user;
          email := JwtPayload.email user;
          name := match JwtPayload.name user with
                  | Some n => if bool_decide (n = "") then "N/A" else n
                  | None => "N/A"
                  end;
          iat := JwtPayload.iat user |} |}.

End Profile.

(** ** AppModule and main.ts: the database URI *)

Module AppModule.
Import Backend.

Inductive Connection :=
| Uri (uri : string)
| Throws (message : string).

(** The useFactory of MongooseModule.forRootAsync.  [MONGO_URI] and
    [NODE_ENV] are the values of config.get, [env_NODE_ENV] is
    process.env.NODE_ENV. *)
Definition mongooseFactory (MONGO_URI NODE_ENV env_NODE_ENV : option string)
  : Connection :=
  let uri := MONGO_URI in
  let nodeEnv := truthy_or NODE_ENV (truthy_or env_NODE_ENV "development") in
  match uri with
  | Some u =>
      if negb (bool_decide (u = "")) then Uri u
      else if bool_decide (nodeEnv = "production")
      then Throws "MONGO_URI must be provided in production environment"
      else Uri "mongodb://localhost:27017/user_registration"
  | None =>
      if bool_decide (nodeEnv = "production")
      then Throws "MONGO_URI must be provided in production environment"
      else Uri "mongodb://localhost:27017/user_registration"
  end.

(** bootstrap() in main.ts: the URI written to the console as
    "Database URI". *)
Definition logged_mongoUri (MONGO_URI : option string) : string :=
  truthy_or MONGO_URI "mongodb://localhost:27017/user_db".

(** A variable that config.get finds missing or empty. *)
Definition unset (o : option string) : Prop := o = None \/ o = Some "".

End AppModule.

(** ** RegisterForm: the rules of the password field *)

Module RegisterForm.

(** register("password", { required, minLength: 6 }): the message shown
    under the field, if any; required is checked first. *)
Definition password_error (value : string) : option string :=
  if bool_decide (value = "") then Some "Password is required"
  else if Nat.ltb (String.length value) 6
       then Some "Password must be at least 6 characters"
       else None.

End RegisterForm.

(** ** useMessage, with its timers *)

Module UseMessage.

(** [message] and [messageType] are the two pieces of state; [timers]
    holds the due times, in milliseconds, of the pending setTimeout
    callbacks, each of which is setMessage('').  No caller keeps the
    function displayMessage returns, so no timer is ever cleared. *)
Record State := { message : string; messageType : string; timers : list N }.

Definition init : State := {| message := ""; messageType := ""; timers := [] |}.

(** displayMessage(msg, type), called at time [now]. *)
Definition displayMessage (now : N) (msg type : string) (st : State) : State :=
  {| message := msg; messageType := type;
     timers := timers st ++ [(now + 5000)%N] |}.

(** The event loop reaches time [now]: every timer that is due runs. *)
Definition elapse (now : N) (st : State) : State :=
  if existsb (fun due => (due <=? now)%N) (timers st)
  then {| message := ""; messageType := messageType st;
          timers := List.filter (fun due => (now <? due)%N) (timers st) |}
  else st.

End UseMessage.

(** ** apiCall: the message of the error it throws *)

Module ApiCall.

(** error.response?.data?.message: missing, a string, or an array of
    strings. *)
Inductive ResponseMessage :=
| Missing
| Text (s : string)
| Array (l : list string).

(** The body NestJS sends for an HttpException carries its message. *)
Definition body_message (e : Backend.HttpException) : ResponseMessage :=
  match Backend.message e with
  | Backend.Msg s => Text s
  | Backend.Msgs l => Array l
  end.

(** The catch block of apiCall: [error.response?.data?.message ||
    error.message], joined with ", " when it is an array.  An empty array
    is truthy, an empty string is not. *)
Definition apiCall_error (response_message : ResponseMessage) (error_message : string)
  : string :=
  match response_message with
  | Array l => String.concat ", " l
  | Text s => if bool_decide (s = "") then error_message else s
  | Missing => error_message
  end.

End ApiCall.

(** ** Bodies without a password *)

Module Untyped.
Import Backend.

(** The body a handler is given is the parsed JSON of the request.  Body()
    names a DTO class, but with no pipe bound nothing makes the password be
    there: the service then reads undefined. *)
Record Body := { email : string; password : option string; name : option string }.

Section Service.
Context {B : Bcrypt} {J : JwtService}.

(** AuthenticationService.registerUser on such a body.  bcrypt.hash rejects
    when its data is undefined; the service catches nothing, and an error
    that is no HttpException is answered with the 500. *)
Definition registerUser_body (users : list User.t) (fresh : Fresh)
    (registrationData : Body)
  : Result (gmap string string) * list User.t :=
  let email := email registrationData in
  let password := password registrationData in
  let name := name registrationData in
  match findOne email users with
  | Some _ => (Err (ConflictException "User with this email already exists"), users)
  | None =>
      match password with
      | None => (Err InternalServerError, users)
      | Some password =>
          let hashedPassword := bcrypt_hash password 10 (salt fresh) in
          let newUser := User.mk (objectId fresh) email hashedPassword name in
          let savedUser := newUser in
          (Ok (delete "passwordHash" (toJSON savedUser)), users ++ [savedUser])
      end
  end.

(** AuthenticationService.loginUser on such a body; bcrypt.compare rejects
    when its data is undefined. *)
Definition loginUser_body (users : list User.t) (now : nat)
    (loginData : Body) : Result LoginResult :=
  let email := email loginData in
  let password := password loginData in
  match findOne email users with
  | None => Err (UnauthorizedException "Invalid credentials")
  | Some user =>
      match password with
      | None => Err InternalServerError
      | Some password =>
          let isPasswordValid := bcrypt_compare password (User.passwordHash user) in
          if negb isPasswordValid then
            Err (UnauthorizedException "Invalid credentials")
          else
            let payload :=
              JwtPayload.mk (User.name user) None (User.email user) (User._id user) in
            let accessToken := jwt_sign payload now in
            Ok {| Backend.user := delete "passwordHash" (toJSON user);
                  accessToken := accessToken |}
      end
  end.

End Service.

End Untyped.

(** ** Observations on runs of the client *)

Module Trace.
Import Client.

(** The promise a request on the wire will settle in the end. *)
Definition promise_of (f : InFlight) : nat :=
  match awaiting f with
  | App k => k
  | Frame _ k => k
  end.

(** Promises not yet settled: on the wire or in the queue. *)
Definition pending (st : State) : list nat :=
  map promise_of (wire st) ++ map promise (failedQueue st).

(** The promises application code was handed, in order. *)
Definition called (evs : list Event) : list nat :=
  flat_map (fun ev => match ev with Call k _ _ => [k] | _ => [] end) evs.

(** A request of the application that was not sent again yet. *)
Definition is_first_attempt (f : InFlight) : bool :=
  match awaiting f with
  | App _ => negb (_retry (request f))
  | Frame _ _ => false
  end.

(** How often the promise [k] occurs among the pending and the settled. *)
Definition occurrences (k : nat) (st : State) : nat :=
  count_occ Nat.eq_dec (pending st ++ map fst (settled st)) k.

(** The frame of a refresh holds a request already marked retried. *)
Definition frames_retried (st : State) : Prop :=
  Forall (fun f => match awaiting f with
                   | Frame originalRequest _ => _retry originalRequest = true
                   | App _ => True
                   end) (wire st).

(** Requests sent so far, plus those the requests under way can still
    cause: a first attempt on the wire may start a refresh and be sent
    again, a queued request and the request of a frame may be sent again. *)
Definition load (st : State) : nat :=
  length (sent st) + 2 * length (List.filter is_first_attempt (wire st))
  + length (failedQueue st) + refreshes_in_flight st.

(** [answered st i f st']: what the answer to the request [f], the i-th on
    the wire of [st], can lead to: the promise settles; the request is
    queued; it starts a refresh; or, for the refresh exchange, the frame
    resumes in its try block or in its catch block. *)
(** [st1] differs from [st0] at most in what clearAuthState touches. *)
Definition same_traffic (st0 st1 : State) : Prop :=
  isRefreshing st1 = isRefreshing st0 /\ failedQueue st1 = failedQueue st0 /\
  wire st1 = wire st0 /\ sent st1 = sent st0 /\ settled st1 = settled st0.

Inductive answered (st : State) (i : nat) (f : InFlight) : State -> Prop :=
| ans_settle k o st1 :
    awaiting f = App k ->
    same_traffic (set_wire (delete i (wire st)) st) st1 ->
    answered st i f (settle k o st1)
| ans_queue k :
    awaiting f = App k -> _retry (request f) = false ->
    isRefreshing st = true ->
    answered st i f
      (set_failedQueue (failedQueue st ++ [{| waiting := request f; promise := k |}])
         (set_wire (delete i (wire st)) st))
| ans_start k :
    awaiting f = App k -> _retry (request f) = false ->
    isRefreshing st = false ->
    answered st i f
      (dispatch (Frame (set__retry true (request f)) k) refreshRequest
         (set_isRefreshing true (set_wire (delete i (wire st)) st)))
| ans_fulfilled originalRequest k data :
    awaiting f = Frame originalRequest k ->
    answered st i f
      (refresh_fulfilled originalRequest k data (set_wire (delete i (wire st)) st))
| ans_rejected originalRequest k e st1 :
    awaiting f = Frame originalRequest k ->
    same_traffic (set_wire (delete i (wire st)) st) st1 ->
    answered st i f (refresh_rejected originalRequest k e st1).

End Trace.

(* ===================================================================== *)
(** * Backend: properties *)
(* ===================================================================== *)

Section BackendProofs.
Import Backend.

Lemma unbits_bits p : Toy.unbits (Toy.bits p) = p.
Proof. induction p as [q IH|q IH|]; simpl; [rewrite IH..|]; reflexivity. Qed.

Lemma cons_not_self (c : ascii) (s : string) : String c s <> s.
Proof.
  intros H. apply (f_equal String.length) in H. simpl in H.
  induction (String.length s); [discriminate | injection H as H; auto].
Qed.

Lemma toy_bcrypt_spec : BcryptSpec Toy.bcrypt.
Proof.
  split; simpl.
  - intros p _ _. apply bool_decide_eq_true. reflexivity.
  - intros p _ _. apply cons_not_self.
Qed.

Lemma bcrypt_key_idem p : bcrypt_key (bcrypt_key p) = bcrypt_key p.
Proof.
  unfold bcrypt_key. generalize 72. intros n. revert p.
  induction n as [|n IH]; intros [|c p]; simpl; try reflexivity.
  rewrite IH. reflexivity.
Qed.

Lemma hash72_key p : Toy.hash72 (bcrypt_key p) = Toy.hash72 p.
Proof.
  unfold Toy.hash72. rewrite bcrypt_key_idem. destruct p; reflexivity.
Qed.

Lemma toy_bcrypt72_spec : BcryptSpec Toy.bcrypt72.
Proof.
  split; simpl.
  - intros p _ _. apply bool_decide_eq_true. reflexivity.
  - intros p _ _. unfold Toy.hash72. destruct p as [|c p]; [discriminate|].
    destruct (bool_decide (c = "#"%char)) eqn:E; intros [= H _].
    + apply bool_decide_eq_true in E. subst c. discriminate.
    + apply bool_decide_eq_false in E. congruence.
Qed.

Lemma toy_bcrypt72_truncates : BcryptTruncates Toy.bcrypt72.
Proof.
  split; simpl.
  - intros q h. rewrite hash72_key. reflexivity.
  - intros p _ _. rewrite hash72_key. reflexivity.
Qed.

Lemma toy_jwt_spec : JwtSpec Toy.jwt.
Proof.
  split. intros p now. simpl. rewrite unbits_bits, decode_encode. reflexivity.
Qed.

Context {B : Bcrypt} {J : JwtService} {V : Validator}.

(** *** The collection only grows at its end *)

Lemma findOne_app e (l l' : list User.t) :
  findOne e (l ++ l') =
  match findOne e l with Some u => Some u | None => findOne e l' end.
Proof.
  unfold findOne. induction l as [|u l IH]; simpl; [reflexivity|].
  destruct (bool_decide (User.email u = e)); [reflexivity | exact IH].
Qed.

Lemma findOne_email e l u : findOne e l = Some u -> User.email u = e.
Proof.
  unfold findOne. intros H. apply find_some in H as [_ H].
  apply bool_decide_eq_true in H. exact H.
Qed.

Lemma registerUser_new users fresh d :
  findOne (RegisterUserDto.email d) users = None ->
  registerUser users fresh d =
  (Ok (delete "passwordHash"
         (toJSON (User.mk (objectId fresh) (RegisterUserDto.email d)
                    (bcrypt_hash (RegisterUserDto.password d) 10 (salt fresh))
                    (RegisterUserDto.name d)))),
   users ++ [User.mk (objectId fresh) (RegisterUserDto.email d)
               (bcrypt_hash (RegisterUserDto.password d) 10 (salt fresh))
               (RegisterUserDto.name d)]).
Proof. intros H. unfold registerUser. rewrite H. reflexivity. Qed.

Lemma registerUser_taken users fresh d u :
  findOne (RegisterUserDto.email d) users = Some u ->
  registerUser users fresh d =
  (Err (ConflictException "User with this email already exists"), users).
Proof. intros H. unfold registerUser. rewrite H. reflexivity. Qed.

Lemma call_keeps e users u c :
  findOne e users = Some u -> findOne e (call users c) = Some u.
Proof.
  intros H. destruct c as [fresh d | now d]; simpl; [|exact H].
  unfold registerUser.
  destruct (findOne (RegisterUserDto.email d) users); simpl; [exact H|].
  rewrite findOne_app, H. reflexivity.
Qed.

Lemma calls_keep e cs : forall users u,
  findOne e users = Some u -> findOne e (calls users cs) = Some u.
Proof.
  unfold calls. induction cs as [|c cs IH]; simpl; intros users u H; [exact H|].
  apply IH, call_keeps, H.
Qed.

Lemma run_pipes_valid ps : run_pipes ps [] = None.
Proof. induction ps as [|[] ps IH]; simpl; auto. Qed.

Lemma toJSON_without_hash u : delete "passwordHash" (toJSON u) !! "passwordHash" = None.
Proof. apply lookup_delete_eq. Qed.

Lemma toJSON_email u : delete "passwordHash" (toJSON u) !! "email" = Some (User.email u).
Proof.
  rewrite lookup_delete_ne by discriminate. unfold toJSON.
  destruct (User.name u); repeat (rewrite lookup_insert_ne by discriminate);
    apply lookup_insert_eq.
Qed.

Lemma toJSON_id u : delete "passwordHash" (toJSON u) !! "_id" = Some (User._id u).
Proof.
  rewrite lookup_delete_ne by discriminate. unfold toJSON.
  destruct (User.name u); repeat (rewrite lookup_insert_ne by discriminate);
    apply lookup_insert_eq.
Qed.

End BackendProofs.

Section BackendClaims.
Import Backend.
Context {B : Bcrypt} {J : JwtService} {V : Validator}.

(** *** Registration *)

(** C5: a first valid registration with an email succeeds and returns the
    created user; a later valid registration with the same email, after any
    other calls to the service, fails with the 409 conflict and leaves the
    collection as it was.  This holds whatever pipes are bound. *)
Theorem C5_duplicate_email_conflict
    (ps : list Pipe) (users : list User.t) (fresh1 fresh2 : Fresh)
    (d1 d2 : RegisterUserDto.t) (cs : list Call) :
  RegisterUserDto_validate d1 = [] ->
  RegisterUserDto_validate d2 = [] ->
  findOne (RegisterUserDto.email d1) users = None ->
  RegisterUserDto.email d2 = RegisterUserDto.email d1 ->
  let first := post_register ps users fresh1 d1 in
  let later := calls (snd first) cs in
  let second := post_register ps later fresh2 d2 in
  (exists created saved,
      fst first = Ok created /\
      snd first = users ++ [saved] /\
      created = delete "passwordHash" (toJSON saved) /\
      created !! "email" = Some (RegisterUserDto.email d1) /\
      created !! "_id" = Some (objectId fresh1)) /\
  fst second = Err (ConflictException "User with this email already exists") /\
  statusCode (ConflictException "User with this email already exists") = 409 /\
  snd second = later.
Proof.
  intros Hv1 Hv2 Hnew Heq first later second.
  subst first later second. unfold post_register.
  rewrite Hv1, Hv2, !run_pipes_valid, (registerUser_new _ _ _ Hnew). simpl.
  split.
  - eexists _, _. split; [reflexivity|]. split; [reflexivity|].
    split; [reflexivity|]. split; [apply toJSON_email | apply toJSON_id].
  - set (saved := User.mk _ _ _ _).
    assert (Hin : findOne (RegisterUserDto.email d2) (calls (users ++ [saved]) cs)
                  = Some saved).
    { apply calls_keep. rewrite findOne_app, Heq, Hnew. unfold findOne. simpl.
      rewrite bool_decide_eq_true_2; reflexivity. }
    rewrite (registerUser_taken _ _ _ _ Hin). auto.
Qed.

(** C6: a valid registration with an email not yet in the collection
    succeeds; the stored document holds the payload's email and name, a
    fresh _id, and in passwordHash the bcrypt hash of the password, which
    is not the plaintext; the object returned has no passwordHash field. *)
Theorem C6_password_stored_hashed
    {HB : BcryptSpec B}
    (ps : list Pipe) (users : list User.t) (fresh : Fresh) (d : RegisterUserDto.t) :
  RegisterUserDto_validate d = [] ->
  findOne (RegisterUserDto.email d) users = None ->
  exists created saved,
    post_register ps users fresh d = (Ok created, users ++ [saved]) /\
    saved = User.mk (objectId fresh) (RegisterUserDto.email d)
              (bcrypt_hash (RegisterUserDto.password d) 10 (salt fresh))
              (RegisterUserDto.name d) /\
    User.passwordHash saved <> RegisterUserDto.password d /\
    bcrypt_compare (RegisterUserDto.password d) (User.passwordHash saved) = true /\
    created = delete "passwordHash" (toJSON saved) /\
    created !! "passwordHash" = None /\
    created !! "email" = Some (RegisterUserDto.email d).
Proof.
  intros Hv Hnew. unfold post_register.
  rewrite Hv, run_pipes_valid, (registerUser_new _ _ _ Hnew).
  eexists _, _. split; [reflexivity|]. split; [reflexivity|]. simpl.
  split; [apply hash_not_plain|]. split; [apply compare_hash|].
  split; [reflexivity|]. split; [apply toJSON_without_hash | apply toJSON_email].
Qed.

(** *** Login *)

(** With a bcrypt that reads 72 bytes, a password that shares the first 72
    bytes of the registered one logs in. *)
Lemma login_accepts_same_key
    {HB : BcryptSpec B} {HT : BcryptTruncates B}
    (users : list User.t) (fresh : Fresh) (d : RegisterUserDto.t)
    (cs : list Call) (now : nat) (other : string) :
  findOne (RegisterUserDto.email d) users = None ->
  bcrypt_key other = bcrypt_key (RegisterUserDto.password d) ->
  exists result,
    loginUser (calls (snd (registerUser users fresh d)) cs) now
      (LoginUserDto.mk (RegisterUserDto.email d) other) = Ok result.
Proof.
  intros Hnew Hkey. rewrite (registerUser_new _ _ _ Hnew). simpl.
  set (saved := User.mk _ _ _ _).
  assert (Hin : findOne (RegisterUserDto.email d) (calls (users ++ [saved]) cs)
                = Some saved).
  { apply calls_keep. rewrite findOne_app, Hnew. unfold findOne. simpl.
    rewrite bool_decide_eq_true_2; reflexivity. }
  unfold loginUser. simpl. rewrite Hin. simpl.
  rewrite compare_key, Hkey, <- compare_key, compare_hash. simpl.
  eexists. reflexivity.
Qed.

(** C4, as the code has it: once a user is registered, and after any
    further calls to the service (failed login attempts among them), login
    with the registered email and password returns the user and an access
    token that decodes to the registered _id as sub, the email and the name,
    and the Post handler answers 201; login with that email and a password
    that bcrypt.compare rejects for the stored hash fails with the 401
    'Invalid credentials', every time. *)
Theorem C4_login_after_registration
    {HB : BcryptSpec B} {HJ : JwtSpec J}
    (users : list User.t) (fresh : Fresh) (d : RegisterUserDto.t)
    (cs : list Call) (now : nat) :
  findOne (RegisterUserDto.email d) users = None ->
  let later := calls (snd (registerUser users fresh d)) cs in
  let stored := bcrypt_hash (RegisterUserDto.password d) 10 (salt fresh) in
  (exists saved token,
      fst (registerUser users fresh d) = Ok (delete "passwordHash" (toJSON saved)) /\
      User.passwordHash saved = stored /\
      loginUser later now
        (LoginUserDto.mk (RegisterUserDto.email d) (RegisterUserDto.password d)) =
      Ok {| user := delete "passwordHash" (toJSON saved); accessToken := token |} /\
      status_of POST
        (loginUser later now
           (LoginUserDto.mk (RegisterUserDto.email d) (RegisterUserDto.password d)))
      = 201 /\
      jwt_decode token =
      Some (JwtPayload.mk (RegisterUserDto.name d) (Some now)
              (RegisterUserDto.email d) (objectId fresh)) /\
      User._id saved = objectId fresh) /\
  (forall (wrong : string) (t : nat),
      bcrypt_compare wrong stored = false ->
      loginUser later t (LoginUserDto.mk (RegisterUserDto.email d) wrong) =
      Err (UnauthorizedException "Invalid credentials") /\
      status_of POST
        (loginUser later t (LoginUserDto.mk (RegisterUserDto.email d) wrong)) = 401).
Proof.
  intros Hnew later stored. subst later stored.
  rewrite (registerUser_new _ _ _ Hnew). simpl.
  set (saved := User.mk _ _ _ _).
  assert (Hin : findOne (RegisterUserDto.email d) (calls (users ++ [saved]) cs)
                = Some saved).
  { apply calls_keep. rewrite findOne_app, Hnew. unfold findOne. simpl.
    rewrite bool_decide_eq_true_2; reflexivity. }
  split.
  - exists saved. eexists. split; [reflexivity|]. split; [reflexivity|].
    unfold loginUser. simpl. rewrite Hin. simpl.
    rewrite compare_hash. simpl. split; [reflexivity|]. split; [reflexivity|].
    split; [apply decode_sign | reflexivity].
  - intros wrong t Hw. unfold loginUser. simpl. rewrite Hin. simpl.
    rewrite Hw. simpl. split; reflexivity.
Qed.

(** C4 as stated does not hold.  A login with the registered credentials is
    answered 201, not 200.  And with a bcrypt that reads 72 bytes, as the
    package does, a password that differs from the registered one in its
    73rd character logs in. *)
Lemma C4_counterexample :
  status_of POST
    (loginUser (B := Toy.bcrypt) (J := Toy.jwt) BackendScenario.users_after_alice 1000
       (LoginUserDto.mk "a@x.com" "password1")) = 201 /\
  201 <> 200 /\
  BackendScenario.other_password <> BackendScenario.long_password /\
  exists result,
    loginUser (B := Toy.bcrypt72) (J := Toy.jwt) BackendScenario.users_after_bob 1000
      (LoginUserDto.mk "b@x.com" BackendScenario.other_password) = Ok result.
Proof.
  split; [reflexivity|]. split; [discriminate|]. split.
  - intros H. vm_compute in H. discriminate H.
  - eexists. reflexivity.
Qed.

(** C9: a login with an email that is not in the collection and a login
    with an email that is, but with a password bcrypt.compare rejects, fail
    with one and the same exception: 401, 'Invalid credentials'. *)
Theorem C9_login_failures_indistinguishable
    (users : list User.t) (now1 now2 : nat) (unknown known : LoginUserDto.t)
    (u : User.t) :
  findOne (LoginUserDto.email unknown) users = None ->
  findOne (LoginUserDto.email known) users = Some u ->
  bcrypt_compare (LoginUserDto.password known) (User.passwordHash u) = false ->
  loginUser users now1 unknown = loginUser users now2 known /\
  loginUser users now1 unknown = Err (UnauthorizedException "Invalid credentials") /\
  UnauthorizedException "Invalid credentials" =
  {| statusCode := 401; message := Msg "Invalid credentials" |}.
Proof.
  intros H1 H2 H3. unfold loginUser. rewrite H1, H2. simpl. rewrite H3. simpl.
  auto.
Qed.

(** *** Refresh *)

(** C3: POST /authentication/refresh is routed to the refresh handler, but
    the handler calls a method the service does not define: whatever refresh
    artifact the body carries, the answer is the 500 of an unhandled error,
    never a new access token and never a 401; and the path the client posts
    to, /refresh-token, is not routed at all. *)
Theorem C3_refresh_endpoint (artifact : string) :
  route POST "/authentication/refresh" = Some refresh /\
  route POST "/authentication/refresh-token" = None /\
  post_refresh artifact = Err InternalServerError /\
  status_of POST (post_refresh artifact) = 500 /\
  (forall token, post_refresh artifact <> Ok token) /\
  status_of POST (post_refresh artifact) <> 401.
Proof.
  repeat split; try reflexivity; discriminate.
Qed.

(** The path the client posts to is not a route of the controller. *)
Lemma refresh_token_path_not_routed :
  route POST "/authentication/refresh-token" = None.
Proof. reflexivity. Qed.

(** *** Validation *)

Lemma short_password_invalid (d : RegisterUserDto.t) :
  String.length (RegisterUserDto.password d) < 8 ->
  RegisterUserDto_validate d <> [].
Proof.
  intros H. unfold RegisterUserDto_validate.
  apply Nat.ltb_lt in H. rewrite H.
  rewrite !app_nil. intros (_ & _ & E & _). discriminate.
Qed.

(** With a ValidationPipe bound to the handler, a password shorter than 8
    characters is rejected with a 400 before the service is called. *)
Lemma validation_pipe_rejects_short_password
    (ps : list Pipe) (users : list User.t) (fresh : Fresh) (d : RegisterUserDto.t) :
  ps <> [] ->
  String.length (RegisterUserDto.password d) < 8 ->
  post_register ps users fresh d =
  (Err (BadRequestException (RegisterUserDto_validate d)), users).
Proof.
  intros Hps Hlen. apply short_password_invalid in Hlen.
  unfold post_register.
  destruct ps as [|[] ps]; [contradiction|]. simpl.
  destruct (RegisterUserDto_validate d); [contradiction | reflexivity].
Qed.

(** C10: the application as bootstrapped binds no pipe, so the handler
    passes a body with a 7-character password (one the registration form
    lets through) to the service, which stores a user for it, although the
    DTO class declares the violation. *)
Theorem C10_short_password_registered
    (FRONTEND_URL : option string) (PORT : option nat) (fresh : Fresh) :
  let d := RegisterUserDto.mk "a@x.com" "secret7" None in
  let app := bootstrap FRONTEND_URL PORT in
  String.length (RegisterUserDto.password d) = 7 /\
  In "Password must be at least 8 characters long." (RegisterUserDto_validate d) /\
  boundPipes app = [] /\
  post_register (boundPipes app) [] fresh d =
  (Ok (delete "passwordHash"
         (toJSON (User.mk (objectId fresh) "a@x.com"
                    (bcrypt_hash "secret7" 10 (salt fresh)) None))),
   [User.mk (objectId fresh) "a@x.com" (bcrypt_hash "secret7" 10 (salt fresh)) None]).
Proof.
  simpl. split; [reflexivity|]. split.
  - unfold RegisterUserDto_validate. simpl.
    rewrite !in_app_iff. simpl. tauto.
  - split; reflexivity.
Qed.

End BackendClaims.

(* ===================================================================== *)
(** * Client request coordinator: properties *)
(* ===================================================================== *)

Section ClientProofs.
Import Client.

(** *** The request interceptor *)

Lemma requestInterceptor_url st c : url (requestInterceptor st c) = url c.
Proof.
  unfold requestInterceptor. destruct (localStorage st !! TOKEN_KEY); [|reflexivity].
  destruct (_ && _); reflexivity.
Qed.

Lemma requestInterceptor__retry st c : _retry (requestInterceptor st c) = _retry c.
Proof.
  unfold requestInterceptor. destruct (localStorage st !! TOKEN_KEY); [|reflexivity].
  destruct (_ && _); reflexivity.
Qed.

Lemma requestInterceptor_header st c :
  truthy (Authorization c) = true -> requestInterceptor st c = c.
Proof.
  intros H. unfold requestInterceptor. rewrite H.
  destruct (localStorage st !! TOKEN_KEY); [|reflexivity].
  rewrite andb_false_r. reflexivity.
Qed.

Lemma requestInterceptor_replay st token c :
  requestInterceptor st (replay token c) = replay token c.
Proof. apply requestInterceptor_header. reflexivity. Qed.

Lemma requestInterceptor_storage st st' c :
  localStorage st' = localStorage st ->
  requestInterceptor st' c = requestInterceptor st c.
Proof. intros H. unfold requestInterceptor. rewrite H. reflexivity. Qed.

(** *** processQueue *)

Lemma fold_release_reject e token q : forall st,
  fold_left (release (Some e) token) q st =
  set_settled (settled st ++ map (fun d => (promise d, Rejected e)) q) st.
Proof.
  induction q as [|d q IH]; intros st; simpl.
  - rewrite app_nil_r. destruct st; reflexivity.
  - rewrite IH. destruct st; simpl. unfold set_settled; simpl.
    rewrite <- app_assoc. reflexivity.
Qed.

Lemma fold_release_resolve token q : forall st,
  fold_left (release None token) q st =
  set_sent (sent st ++ map (fun d => replay (template token) (waiting d)) q)
    (set_wire (wire st ++ map (replayed (template token)) q) st).
Proof.
  induction q as [|d q IH]; intros st; simpl.
  - rewrite !app_nil_r. destruct st; reflexivity.
  - rewrite IH. unfold dispatch.
    change (set__retry true (set_Authorization (Some ("Bearer " +:+ template token)) (waiting d)))
      with (replay (template token) (waiting d)).
    rewrite requestInterceptor_replay.
    destruct st; unfold set_sent, set_wire; simpl.
    rewrite <- !app_assoc. reflexivity.
Qed.

Lemma processQueue_reject e token st st' :
  snd (processQueue (Some e) token st) st' =
  set_settled (settled st' ++ map (fun d => (promise d, Rejected e)) (failedQueue st)) st'.
Proof. unfold processQueue. cbn [snd]. apply fold_release_reject. Qed.

Lemma processQueue_resolve token st st' :
  snd (processQueue None token st) st' =
  set_sent (sent st' ++ map (fun d => replay (template (or_null token)) (waiting d))
                          (failedQueue st))
    (set_wire (wire st' ++ map (replayed (template (or_null token))) (failedQueue st)) st').
Proof. unfold processQueue. cbn [snd]. apply fold_release_resolve. Qed.

(** The try block, in one piece: the token is stored, the flag and the
    queue are reset, the request of the frame is sent again with the token of
    the response, and after it the queued requests, with the token
    processQueue was given. *)
Lemma refresh_fulfilled_eq originalRequest k data st :
  refresh_fulfilled originalRequest k data st =
  set_sent
    (sent st
     ++ set_Authorization
          (Some ("Bearer " +:+ template (property (data !! "accessToken"))))
          originalRequest
        :: map (fun d => replay (template (or_null (property (data !! "accessToken"))))
                           (waiting d)) (failedQueue st))
    (set_wire
       (wire st
        ++ {| request :=
                set_Authorization
                  (Some ("Bearer " +:+ template (property (data !! "accessToken"))))
                  originalRequest;
              awaiting := App k |}
           :: map (replayed (template (or_null (property (data !! "accessToken")))))
                (failedQueue st))
       (set_failedQueue []
          (set_isRefreshing false
             (set_localStorage
                (<[TOKEN_KEY := template (property (data !! "accessToken"))]>
                   (localStorage st)) st)))).
Proof.
  unfold refresh_fulfilled.
  change (processQueue None (property (data !! "accessToken"))
            (set_isRefreshing false
               (set_localStorage
                  (<[TOKEN_KEY := template (property (data !! "accessToken"))]>
                     (localStorage st)) st)))
    with (set_failedQueue []
            (set_isRefreshing false
               (set_localStorage
                  (<[TOKEN_KEY := template (property (data !! "accessToken"))]>
                     (localStorage st)) st)),
          snd (processQueue None (property (data !! "accessToken"))
                 (set_isRefreshing false
                    (set_localStorage
                       (<[TOKEN_KEY := template (property (data !! "accessToken"))]>
                          (localStorage st)) st)))).
  cbv iota beta. rewrite processQueue_resolve. unfold dispatch.
  rewrite (requestInterceptor_header _ (set_Authorization _ originalRequest))
    by reflexivity.
  destruct st; unfold set_sent, set_wire; cbn. rewrite <- !app_assoc. reflexivity.
Qed.

(** The catch block, in one piece: the flag and the queue are reset, the
    auth state is cleared, the notice is shown, the caller of the frame is
    rejected with the error, and after it the queued promises. *)
Lemma refresh_rejected_eq originalRequest k e st :
  refresh_rejected originalRequest k e st =
  set_settled
    (settled st ++ (k, Rejected e)
                   :: map (fun d => (promise d, Rejected e)) (failedQueue st))
    (displayMessage "Session expired. Please log in again." "error"
       (clearAuthState (set_failedQueue [] (set_isRefreshing false st)))).
Proof.
  unfold refresh_rejected.
  change (processQueue (Some e) Undefined (set_isRefreshing false st))
    with (set_failedQueue [] (set_isRefreshing false st),
          snd (processQueue (Some e) Undefined (set_isRefreshing false st))).
  cbv iota beta. rewrite processQueue_reject.
  destruct st; unfold set_settled; cbn. rewrite <- !app_assoc. reflexivity.
Qed.

(** *** Counting refresh exchanges *)

Lemma in_flight_app (l l' : list InFlight) :
  length (List.filter is_refresh (l ++ l')) =
  length (List.filter is_refresh l) + length (List.filter is_refresh l').
Proof. rewrite List.filter_app, length_app. reflexivity. Qed.

Lemma in_flight_delete (l : list InFlight) : forall i f,
  l !! i = Some f ->
  length (List.filter is_refresh l) =
  (if is_refresh f then 1 else 0) + length (List.filter is_refresh (delete i l)).
Proof.
  induction l as [|g l IH]; intros [|i] f H; simpl in *; try discriminate.
  - injection H as ->. destruct (is_refresh f); reflexivity.
  - destruct (is_refresh g); simpl; rewrite (IH _ _ H); lia.
Qed.

Lemma in_flight_replayed token (q : list Deferred) :
  List.filter is_refresh (map (replayed token) q) = [].
Proof. induction q as [|d q IH]; simpl; [reflexivity | exact IH]. Qed.


(** *** The invariant holds in every reachable state *)

Lemma is_auth_endpoint_intercepted st c :
  is_auth_endpoint (requestInterceptor st c) = is_auth_endpoint c.
Proof. unfold is_auth_endpoint. rewrite requestInterceptor_url. reflexivity. Qed.

Lemma wf_ext st st' :
  isRefreshing st' = isRefreshing st ->
  failedQueue st' = failedQueue st ->
  wire st' = wire st ->
  wf st -> wf st'.
Proof.
  intros H1 H2 H3 [a b c d].
  split; unfold refreshes_in_flight in *; rewrite ?H1, ?H2, ?H3; assumption.
Qed.

Lemma wf_init stored : wf (init stored).
Proof. split; simpl; auto. Qed.

Lemma wf_dispatch_app st k c :
  wf st -> (is_auth_endpoint c = true -> _retry c = false) ->
  wf (dispatch (App k) c st).
Proof.
  intros [a b w q] Hc. split; unfold refreshes_in_flight in *; simpl.
  - rewrite in_flight_app, a. simpl. lia.
  - exact b.
  - apply Forall_app. split; [exact w|]. constructor; [|constructor].
    unfold wire_ok; simpl.
    rewrite is_auth_endpoint_intercepted, requestInterceptor__retry. exact Hc.
  - exact q.
Qed.

(** Taking an answered request of the application off the wire. *)
Lemma wf_answered_app st st' i f k :
  wf st -> wire st !! i = Some f -> awaiting f = App k ->
  isRefreshing st' = isRefreshing st ->
  failedQueue st' = failedQueue st ->
  wire st' = delete i (wire st) ->
  wf st'.
Proof.
  intros [a b w q] Hi Hk H1 H2 H3.
  split; unfold refreshes_in_flight in *; rewrite ?H1, ?H2, ?H3; auto.
  - rewrite (in_flight_delete _ _ _ Hi) in a. unfold is_refresh in a at 1.
    rewrite Hk in a. exact a.
  - apply Forall_delete, w.
Qed.

(** Taking the answered refresh exchange off the wire: the flag was set,
    and no other exchange remains. *)
Lemma answered_refresh st i f originalRequest k :
  wf st -> wire st !! i = Some f -> awaiting f = Frame originalRequest k ->
  isRefreshing st = true /\
  length (List.filter is_refresh (delete i (wire st))) = 0 /\
  url (request f) = "/refresh-token" /\ _retry (request f) = false /\
  is_auth_endpoint originalRequest = false.
Proof.
  intros [a b w q] Hi Hk. unfold refreshes_in_flight in a.
  rewrite (in_flight_delete _ _ _ Hi) in a. unfold is_refresh in a at 1.
  rewrite Hk in a.
  pose proof (Forall_lookup_1 _ _ _ _ w Hi) as Hf. unfold wire_ok in Hf.
  rewrite Hk in Hf. destruct Hf as (Hu & Hr & Ho).
  destruct (isRefreshing st); [|discriminate].
  simpl in a. repeat split; auto; lia.
Qed.

(** The interceptor rejects a failed refresh exchange at once. *)
Lemma responseInterceptor_refresh_exchange k c s m st :
  url c = "/refresh-token" -> _retry c = false ->
  let error := {| config := c; status := s; message := m |} in
  responseInterceptor k error st =
  (if bool_decide (s = Some 401) then clearAuthState st else st, Some error).
Proof.
  intros Hu Hr error. unfold responseInterceptor. simpl. rewrite Hu, Hr. simpl.
  destruct (bool_decide (s = Some 401)); reflexivity.
Qed.

Lemma wf_step st ev : wf st -> wf (step st ev).
Proof.
  intros Hwf. destruct ev as [k m u | i r | token userData | ]; simpl.
  - apply wf_dispatch_app; [exact Hwf | reflexivity].
  - destruct (wire st !! i) as [f|] eqn:Hi; [|exact Hwf].
    destruct r as [data | s m]; destruct (awaiting f) as [k | originalRequest k] eqn:Hk.
    + eapply wf_answered_app; eauto.
    + destruct (answered_refresh _ _ _ _ _ Hwf Hi Hk) as (Hflag & Hcount & Hu & Hr & Ho).
      rewrite refresh_fulfilled_eq.
      destruct Hwf as [a b w q].
      split; unfold refreshes_in_flight; simpl.
      * rewrite in_flight_app, Hcount. simpl. rewrite in_flight_replayed. reflexivity.
      * reflexivity.
      * apply Forall_app. split; [apply Forall_delete, w|]. constructor.
        -- unfold wire_ok; simpl. unfold is_auth_endpoint in *. simpl.
           rewrite Ho. discriminate.
        -- apply Forall_map. eapply Forall_impl; [exact q|].
           intros d Hd. unfold wire_ok; simpl. unfold is_auth_endpoint in *. simpl.
           rewrite Hd. discriminate.
      * constructor.
    + unfold responseInterceptor. simpl.
      destruct (bool_decide (s = Some 401) && negb (_retry (request f))) eqn:Hc.
      * destruct (bool_decide (url (request f) = "/refresh-token")
                  || bool_decide (url (request f) = "/login")) eqn:Ha.
        -- eapply wf_answered_app; eauto.
        -- pose proof (wf_count _ Hwf) as a. unfold refreshes_in_flight in a.
           rewrite (in_flight_delete _ _ _ Hi) in a. unfold is_refresh in a at 1.
           rewrite Hk in a. simpl in a.
           destruct Hwf as [_ b w q].
           destruct (isRefreshing st) eqn:Hflag; simpl.
           ++ split; unfold refreshes_in_flight; simpl; rewrite ?Hflag.
              ** exact a.
              ** discriminate.
              ** apply Forall_delete, w.
              ** apply Forall_app. split; [exact q|]. constructor; [|constructor].
                 exact Ha.
           ++ split; unfold refreshes_in_flight; simpl.
              ** rewrite in_flight_app, a. reflexivity.
              ** discriminate.
              ** apply Forall_app. split; [apply Forall_delete, w|].
                 constructor; [|constructor]. unfold wire_ok; simpl.
                 rewrite requestInterceptor_url, requestInterceptor__retry.
                 repeat split. exact Ha.
              ** exact q.
      * eapply wf_answered_app; eauto.
    + destruct (answered_refresh _ _ _ _ _ Hwf Hi Hk) as (Hflag & Hcount & Hu & Hr & Ho).
      rewrite (responseInterceptor_refresh_exchange _ _ _ _ _ Hu Hr).
      rewrite refresh_rejected_eq.
      destruct Hwf as [a b w q].
      split; unfold refreshes_in_flight; simpl.
      * destruct (bool_decide (s = Some 401)); exact Hcount.
      * reflexivity.
      * destruct (bool_decide (s = Some 401)); apply Forall_delete, w.
      * constructor.
  - eapply wf_ext; [| | |exact Hwf]; reflexivity.
  - eapply wf_ext; [| | |exact Hwf]; reflexivity.
Qed.

Lemma wf_run evs : forall st, wf st -> wf (run st evs).
Proof.
  unfold run. induction evs as [|ev evs IH]; simpl; intros st H; [exact H|].
  apply IH, wf_step, H.
Qed.

Lemma wf_reachable stored evs : wf (run (init stored) evs).
Proof. apply wf_run, wf_init. Qed.


(** *** Single steps of the coordinator *)

Lemma filter_delete_app (l : list InFlight) : forall i f,
  l !! i = Some f -> is_refresh f = false ->
  List.filter is_refresh (delete i l) = List.filter is_refresh l.
Proof.
  induction l as [|g l IH]; intros [|i] f H Hf; simpl in *; try discriminate.
  - injection H as ->. rewrite Hf. reflexivity.
  - rewrite (IH _ _ H Hf). reflexivity.
Qed.

Lemma step_unauthorized_idle st i f k m :
  wire st !! i = Some f -> awaiting f = App k ->
  is_auth_endpoint (request f) = false -> _retry (request f) = false ->
  isRefreshing st = false ->
  step st (Respond i (Failure (Some 401) m)) =
  dispatch (Frame (set__retry true (request f)) k) refreshRequest
    (set_isRefreshing true (set_wire (delete i (wire st)) st)).
Proof.
  intros Hi Hk Ha Hr Hflag. unfold is_auth_endpoint in Ha.
  cbn [step]. rewrite Hi, Hk. unfold responseInterceptor. cbn [config status].
  rewrite bool_decide_eq_true_2 by reflexivity. rewrite Hr, Ha.
  cbn [isRefreshing set_wire negb andb]. rewrite Hflag. reflexivity.
Qed.

Lemma step_unauthorized_busy st i f k m :
  wire st !! i = Some f -> awaiting f = App k ->
  is_auth_endpoint (request f) = false -> _retry (request f) = false ->
  isRefreshing st = true ->
  step st (Respond i (Failure (Some 401) m)) =
  set_failedQueue (failedQueue st ++ [{| waiting := request f; promise := k |}])
    (set_wire (delete i (wire st)) st).
Proof.
  intros Hi Hk Ha Hr Hflag. unfold is_auth_endpoint in Ha.
  cbn [step]. rewrite Hi, Hk. unfold responseInterceptor. cbn [config status].
  rewrite bool_decide_eq_true_2 by reflexivity. rewrite Hr, Ha.
  cbn [isRefreshing set_wire negb andb]. rewrite Hflag. reflexivity.
Qed.

Lemma step_retried st i f k s m :
  wire st !! i = Some f -> awaiting f = App k -> _retry (request f) = true ->
  step st (Respond i (Failure s m)) =
  settle k (Rejected {| config := request f; status := s; message := m |})
    (set_wire (delete i (wire st)) st).
Proof.
  intros Hi Hk Hr. cbn [step]. rewrite Hi, Hk. unfold responseInterceptor.
  cbn [config status]. rewrite Hr, andb_false_r. reflexivity.
Qed.

Lemma step_refresh_fulfilled st j f originalRequest k data :
  wire st !! j = Some f -> awaiting f = Frame originalRequest k ->
  step st (Respond j (Success data)) =
  refresh_fulfilled originalRequest k data (set_wire (delete j (wire st)) st).
Proof. intros Hj Hk. cbn [step]. rewrite Hj, Hk. reflexivity. Qed.

Lemma step_refresh_rejected st j f originalRequest k s m :
  wire st !! j = Some f -> awaiting f = Frame originalRequest k ->
  url (request f) = "/refresh-token" -> _retry (request f) = false ->
  let st0 := set_wire (delete j (wire st)) st in
  step st (Respond j (Failure s m)) =
  refresh_rejected originalRequest k
    {| config := request f; status := s; message := m |}
    (if bool_decide (s = Some 401) then clearAuthState st0 else st0).
Proof.
  intros Hj Hk Hu Hr st0. cbn [step]. rewrite Hj, Hk.
  rewrite (responseInterceptor_refresh_exchange _ _ _ _ _ Hu Hr). reflexivity.
Qed.

(** While the refresh is in flight, each further 401 is queued, and nothing
    else changes but the wire losing the answered request. *)
Lemma unauthorized_busy st rs st' :
  unauthorized st rs st' ->
  isRefreshing st = true ->
  isRefreshing st' = true /\
  failedQueue st' = failedQueue st ++ rs /\
  sent st' = sent st /\
  settled st' = settled st /\
  localStorage st' = localStorage st /\
  List.filter is_refresh (wire st') = List.filter is_refresh (wire st).
Proof.
  induction 1 as [st | st i f k m rs st' Hi Hk Ha Hr _ IH]; intros Hflag.
  - rewrite app_nil_r. auto 10.
  - rewrite (step_unauthorized_busy _ _ _ _ _ Hi Hk Ha Hr Hflag) in IH.
    destruct (IH Hflag) as (H1 & H2 & H3 & H4 & H5 & H6).
    cbn in H2, H3, H4, H5, H6.
    rewrite <- app_assoc in H2. repeat split; auto.
    rewrite H6. apply (filter_delete_app _ _ _ Hi). unfold is_refresh.
    rewrite Hk. reflexivity.
Qed.

Lemma unauthorized_reachable st rs st' :
  unauthorized st rs st' -> exists evs, st' = run st evs.
Proof.
  induction 1 as [st | st i f k m rs st' _ _ _ _ _ [evs ->]].
  - exists []. reflexivity.
  - exists (Respond i (Failure (Some 401) m) :: evs). reflexivity.
Qed.

End ClientProofs.

Section ClientClaims.
Import Client.

(** C7: a request already marked retried that is answered with a 401 is
    rejected to its caller with that error at once; it is not queued, no
    request is dispatched, and the refresh state is untouched. *)
Theorem C7_retried_request_fails
    (st : State) (i : nat) (f : InFlight) (k : nat) (m : string) :
  wire st !! i = Some f ->
  awaiting f = App k ->
  _retry (request f) = true ->
  let error := {| config := request f; status := Some 401; message := m |} in
  let st' := step st (Respond i (Failure (Some 401) m)) in
  st' = settle k (Rejected error) (set_wire (delete i (wire st)) st) /\
  settled st' = settled st ++ [(k, Rejected error)] /\
  failedQueue st' = failedQueue st /\
  sent st' = sent st /\
  isRefreshing st' = isRefreshing st /\
  refreshes_in_flight st' = refreshes_in_flight st /\
  localStorage st' = localStorage st.
Proof.
  intros Hi Hk Hr error st'. subst error st'.
  rewrite (step_retried _ _ _ _ _ _ Hi Hk Hr).
  repeat split. unfold refreshes_in_flight. cbn.
  rewrite (filter_delete_app _ _ _ Hi); [reflexivity|].
  unfold is_refresh. rewrite Hk. reflexivity.
Qed.

(** C8: in every reachable state, a request on the wire to /login or
    /refresh-token that is answered with a 401 makes the interceptor clear
    the auth state and reject with that error, without queueing and without
    dispatching anything; the stored token is gone afterwards and the error
    reaches the promise of the caller. *)
Theorem C8_auth_endpoint_401
    (stored : gmap string string) (evs : list Event)
    (i : nat) (f : InFlight) (m : string) :
  let st := run (init stored) evs in
  wire st !! i = Some f ->
  is_auth_endpoint (request f) = true ->
  let error := {| config := request f; status := Some 401; message := m |} in
  let st0 := set_wire (delete i (wire st)) st in
  let st' := step st (Respond i (Failure (Some 401) m)) in
  (forall k, responseInterceptor k error st0 = (clearAuthState st0, Some error)) /\
  (forall k, awaiting f = App k ->
             st' = settle k (Rejected error) (clearAuthState st0)) /\
  localStorage st' !! TOKEN_KEY = None /\
  isAuthenticated st' = false /\
  sent st' = sent st /\
  (forall d, In d (failedQueue st') -> In d (failedQueue st)) /\
  (exists k, In (k, Rejected error) (settled st')).
Proof.
  intros st Hi Ha error st0 st'.
  pose proof (wf_reachable stored evs) as Hwf. fold st in Hwf.
  pose proof (Forall_lookup_1 _ _ _ _ (wf_wire _ Hwf) Hi) as Hok.
  assert (Hr : _retry (request f) = false).
  { unfold wire_ok in Hok. destruct (awaiting f); [auto | tauto]. }
  assert (Hint : forall k, responseInterceptor k error st0
                           = (clearAuthState st0, Some error)).
  { intros k. unfold responseInterceptor. subst error. cbn [config status].
    rewrite bool_decide_eq_true_2 by reflexivity. rewrite Hr.
    unfold is_auth_endpoint in Ha. rewrite Ha. reflexivity. }
  split; [exact Hint|].
  assert (Hstep : forall k, awaiting f = App k ->
                            st' = settle k (Rejected error) (clearAuthState st0)).
  { intros k Hk. subst st'. cbn [step]. rewrite Hi, Hk.
    fold st0. fold error. rewrite Hint. reflexivity. }
  split; [exact Hstep|].
  destruct (awaiting f) as [k | originalRequest k] eqn:Hk.
  - rewrite (Hstep k eq_refl). cbn.
    split; [apply lookup_delete_eq|]. split; [reflexivity|].
    split; [reflexivity|]. split; [auto|].
    exists k. apply in_or_app. right. left. reflexivity.
  - unfold wire_ok in Hok. rewrite Hk in Hok. destruct Hok as (Hu & _ & _).
    subst st'. rewrite (step_refresh_rejected _ _ _ _ _ _ _ Hi Hk Hu Hr).
    rewrite bool_decide_eq_true_2 by reflexivity.
    rewrite refresh_rejected_eq. cbn.
    split; [apply lookup_delete_eq|]. split; [reflexivity|].
    split; [reflexivity|]. split; [intros d []|].
    exists k. apply in_or_app. right. left. reflexivity.
Qed.


(** C2, as the code has it: in every reachable state, when the refresh
    exchange fails, whatever the failure, every queued continuation is
    rejected with the error of the refresh exchange, the queue and the flag
    are reset, the stored token is removed, the session-expired notice is
    shown, and the caller whose 401 started the refresh is rejected, before
    the queued ones, with the error of the refresh exchange, which is the
    failure of the request to /refresh-token and not that of the caller's
    own request.  Nothing is dispatched. *)
Theorem C2_refresh_failure
    (stored : gmap string string) (evs : list Event)
    (j : nat) (f : InFlight) (originalRequest : RequestConfig) (k : nat)
    (s : option nat) (m : string) :
  let st := run (init stored) evs in
  wire st !! j = Some f ->
  awaiting f = Frame originalRequest k ->
  let refreshError := {| config := request f; status := s; message := m |} in
  let st' := step st (Respond j (Failure s m)) in
  settled st' =
    settled st
    ++ (k, Rejected refreshError)
       :: map (fun d => (promise d, Rejected refreshError)) (failedQueue st) /\
  failedQueue st' = [] /\
  isRefreshing st' = false /\
  localStorage st' !! TOKEN_KEY = None /\
  isAuthenticated st' = false /\
  notice st' = ("Session expired. Please log in again.", "error") /\
  sent st' = sent st /\
  url (config refreshError) = "/refresh-token" /\
  url originalRequest <> url (config refreshError).
Proof.
  intros st Hj Hk refreshError st'.
  pose proof (wf_reachable stored evs) as Hwf. fold st in Hwf.
  destruct (answered_refresh _ _ _ _ _ Hwf Hj Hk) as (_ & _ & Hu & Hr & Ho).
  subst st'. rewrite (step_refresh_rejected _ _ _ _ _ _ _ Hj Hk Hu Hr).
  rewrite refresh_rejected_eq.
  assert (Hne : url originalRequest <> url (config refreshError)).
  { cbn. rewrite Hu. intros E. unfold is_auth_endpoint in Ho. rewrite E in Ho.
    rewrite bool_decide_eq_true_2 in Ho by reflexivity. discriminate. }
  destruct (bool_decide (s = Some 401)); cbn;
    repeat (split; [reflexivity || apply lookup_delete_eq|]);
    (split; [exact Hu | exact Hne]).
Qed.

(** C2 as stated does not hold: a GET /profile is answered 401, the
    refresh exchange then fails, and the caller is rejected with the error
    of the POST /refresh-token, not with any error of its own request. *)
Lemma C2_counterexample :
  let st1 := run (init {[ TOKEN_KEY := "old" ]})
               [Call 1 "GET" "/profile";
                Respond 0 (Failure (Some 401) "Unauthorized")] in
  let st2 := step st1 (Respond 0 (Failure (Some 401) "Unauthorized")) in
  let refreshError :=
    {| config := {| method := "post"; url := "/refresh-token";
                    Authorization := Some "Bearer old"; _retry := false |};
       status := Some 401; message := "Unauthorized" |} in
  settled st2 = [(1, Rejected refreshError)] /\
  forall original : AxiosError,
    url (config original) = "/profile" ->
    ~ In (1, Rejected original) (settled st2).
Proof.
  assert (E : settled (step (run (init {[ TOKEN_KEY := "old" ]})
               [Call 1 "GET" "/profile";
                Respond 0 (Failure (Some 401) "Unauthorized")])
               (Respond 0 (Failure (Some 401) "Unauthorized")))
          = [(1, Rejected
                {| config := {| method := "post"; url := "/refresh-token";
                    Authorization := Some "Bearer old"; _retry := false |};
                   status := Some 401; message := "Unauthorized" |})]).
  { vm_compute. reflexivity. }
  cbv zeta. rewrite E. split; [reflexivity|].
  intros original Hu [H|[]]. injection H as <-. discriminate Hu.
Qed.


(** C1: in every reachable state at most one refresh exchange is in
    flight.  Starting in a reachable state with no refresh in flight, let
    the requests [r :: rs] be answered 401 one after the other before the
    refresh settles.  Then exactly one request is dispatched meanwhile, the
    refresh exchange, started by [r]; the others are queued in order.  When
    the exchange succeeds with the access token [token] in its response,
    [token] is stored and all of [r :: rs] are sent again with it, marked
    retried; when it fails, all of them are rejected with its error and
    nothing is sent. *)
Theorem C1_single_refresh
    (stored : gmap string string) (evs : list Event)
    (r : Deferred) (rs : list Deferred) (st1 : State) :
  let st := run (init stored) evs in
  isRefreshing st = false ->
  unauthorized st (r :: rs) st1 ->
  let exchange :=
    {| request := requestInterceptor st refreshRequest;
       awaiting := Frame (set__retry true (waiting r)) (promise r) |} in
  (forall evs', refreshes_in_flight (run (init stored) evs') <= 1) /\
  sent st1 = sent st ++ [request exchange] /\
  List.filter is_refresh (wire st1) = [exchange] /\
  isRefreshing st1 = true /\
  failedQueue st1 = rs /\
  settled st1 = settled st /\
  exists j, wire st1 !! j = Some exchange /\
    (forall data token,
        data !! "accessToken" = Some token ->
        let st2 := step st1 (Respond j (Success data)) in
        localStorage st2 !! TOKEN_KEY = Some token /\
        sent st2 ≡ₚ sent st1 ++ map (fun d => replay token (waiting d)) (r :: rs) /\
        wire st2 ≡ₚ delete j (wire st1) ++ map (replayed token) (r :: rs) /\
        settled st2 = settled st1 /\
        isRefreshing st2 = false /\
        failedQueue st2 = []) /\
    (forall s m,
        let refreshError :=
          {| config := request exchange; status := s; message := m |} in
        let st2 := step st1 (Respond j (Failure s m)) in
        settled st2 ≡ₚ
          settled st1 ++ map (fun d => (promise d, Rejected refreshError)) (r :: rs) /\
        sent st2 = sent st1 /\
        isRefreshing st2 = false /\
        failedQueue st2 = []).
Proof.
  intros st Hidle Hburst exchange.
  pose proof (wf_reachable stored evs) as Hwf. fold st in Hwf.
  split.
  { intros evs'. rewrite (wf_count _ (wf_reachable stored evs')).
    destruct (isRefreshing (run (init stored) evs')); simpl; lia. }
  inversion Hburst as [| st_ i f k m rs_ st1_ Hi Hk Ha Hr Hrest]; subst.
  rewrite (step_unauthorized_idle _ _ _ _ _ Hi Hk Ha Hr Hidle) in Hrest.
  destruct (unauthorized_busy _ _ _ Hrest eq_refl) as (H1 & H2 & H3 & H4 & H5 & H6).
  cbn in H2, H3, H4, H5, H6. cbn [waiting promise] in exchange.
  rewrite (wf_idle _ Hwf Hidle) in H2. cbn in H2.
  assert (Hcount : List.filter is_refresh (delete i (wire st)) = []).
  { pose proof (wf_count _ Hwf) as a. unfold refreshes_in_flight in a.
    rewrite (in_flight_delete _ _ _ Hi), Hidle in a.
    apply length_zero_iff_nil. lia. }
  rewrite List.filter_app, Hcount in H6. cbn in H6.
  assert (Hreq : requestInterceptor
                   (set_isRefreshing true (set_wire (delete i (wire st)) st))
                   refreshRequest = requestInterceptor st refreshRequest).
  { apply requestInterceptor_storage. reflexivity. }
  rewrite Hreq in H3, H6. fold exchange in H6.
  split; [exact H3|]. split; [exact H6|]. split; [exact H1|].
  split; [exact H2|]. split; [exact H4|].
  assert (Hin : In exchange (wire st1)).
  { apply (proj1 (filter_In is_refresh exchange (wire st1))).
    rewrite H6. left. reflexivity. }
  apply list_elem_of_In, list_elem_of_lookup in Hin as [j Hj].
  exists j. split; [exact Hj|]. split.
  - intros data token Hdata st2. subst st2.
    rewrite (step_refresh_fulfilled _ _ _ _ _ data Hj eq_refl).
    rewrite refresh_fulfilled_eq, Hdata. cbn. rewrite H2.
    split; [apply lookup_insert_eq|]. auto.
  - intros s m' refreshError st2. subst st2.
    rewrite (step_refresh_rejected _ _ _ _ _ s m' Hj eq_refl);
      [| apply requestInterceptor_url | apply requestInterceptor__retry].
    rewrite refresh_rejected_eq. fold refreshError.
    destruct (bool_decide (s = Some 401)); cbn; rewrite H2; auto.
Qed.

End ClientClaims.

(* ===================================================================== *)
(** * The theorems on the scenarios *)
(* ===================================================================== *)

Section ClientScenarios.
Import Client ClientScenario.

Lemma page_burst :
  unauthorized page
    [{| waiting := get "/profile" false; promise := 1 |};
     {| waiting := get "/orders" false; promise := 2 |}]
    page_401.
Proof.
  apply (unauthorized_cons page 0
           {| request := get "/profile" false; awaiting := App 1 |} 1 "Unauthorized");
    [vm_compute; reflexivity ..|].
  apply (unauthorized_cons _ 0
           {| request := get "/orders" false; awaiting := App 2 |} 2 "Unauthorized");
    [vm_compute; reflexivity ..|].
  apply unauthorized_nil.
Defined.

Lemma C1_witness :
  isRefreshing page = false /\
  failedQueue page_401 = [{| waiting := get "/orders" false; promise := 2 |}] /\
  refreshes_in_flight page_401 <= 1 /\
  sent (step page_401 (Respond 0 (Success {[ "accessToken" := "new" ]}))) ≡ₚ
    sent page_401
    ++ [ {| method := "GET"; url := "/profile";
            Authorization := Some "Bearer new"; _retry := true |};
         {| method := "GET"; url := "/orders";
            Authorization := Some "Bearer new"; _retry := true |} ].
Proof.
  assert (H : isRefreshing page = false) by (vm_compute; reflexivity).
  split; [exact H|].
  destruct (C1_single_refresh {[ TOKEN_KEY := "old" ]} two_calls _ _ _ H page_burst)
    as (Hinv & _ & _ & _ & Hq & _ & j & Hj & Hok & _).
  split; [exact Hq|]. split.
  - exact (Hinv (two_calls ++ [Respond 0 (Failure (Some 401) "Unauthorized");
                               Respond 0 (Failure (Some 401) "Unauthorized")])).
  - assert (Hw : wire page_401 =
                 [ {| request := {| method := "post"; url := "/refresh-token";
                                    Authorization := Some "Bearer old";
                                    _retry := false |};
                      awaiting := Frame (get "/profile" true) 1 |} ])
      by (vm_compute; reflexivity).
    rewrite Hw in Hj. destruct j as [|j]; [|destruct j; discriminate Hj].
    exact (proj1 (proj2 (Hok {[ "accessToken" := "new" ]} "new" eq_refl))).
Defined.

(** The refresh exchange of [page_401] fails with a 500. *)
Lemma C2_witness :
  let exchange :=
    {| request := {| method := "post"; url := "/refresh-token";
                     Authorization := Some "Bearer old"; _retry := false |};
       awaiting := Frame (get "/profile" true) 1 |} in
  let refreshError :=
    {| config := request exchange; status := Some 500;
       message := "Internal Server Error" |} in
  let st' := step page_401 (Respond 0 (Failure (Some 500) "Internal Server Error")) in
  wire page_401 !! 0 = Some exchange /\
  settled st' = [(1, Rejected refreshError); (2, Rejected refreshError)] /\
  localStorage st' !! TOKEN_KEY = None.
Proof.
  intros exchange refreshError st'.
  assert (H : wire page_401 !! 0 = Some exchange) by (vm_compute; reflexivity).
  split; [exact H|].
  destruct (C2_refresh_failure {[ TOKEN_KEY := "old" ]}
              (two_calls ++ [Respond 0 (Failure (Some 401) "Unauthorized");
                             Respond 0 (Failure (Some 401) "Unauthorized")])
              0 exchange (get "/profile" true) 1 (Some 500) "Internal Server Error"
              H eq_refl)
    as (Hs & _ & _ & Hl & _).
  split; [exact Hs | exact Hl].
Defined.

(** In [page_retried], /profile is answered 401 once more. *)
Lemma C7_witness :
  let f := {| request := {| method := "GET"; url := "/profile";
                            Authorization := Some "Bearer new"; _retry := true |};
              awaiting := App 1 |} in
  let st' := step page_retried (Respond 0 (Failure (Some 401) "Unauthorized")) in
  wire page_retried !! 0 = Some f /\
  settled st' =
    [(1, Rejected {| config := request f; status := Some 401; message := "Unauthorized" |})] /\
  sent st' = sent page_retried.
Proof.
  intros f st'.
  assert (H : wire page_retried !! 0 = Some f) by (vm_compute; reflexivity).
  split; [exact H|].
  destruct (C7_retried_request_fails page_retried 0 f 1 "Unauthorized" H eq_refl eq_refl)
    as (_ & Hs & _ & Hsent & _).
  split; [exact Hs | exact Hsent].
Defined.

(** A login with bad credentials from a page that still holds a token. *)
Lemma C8_witness :
  let evs := [Call 7 "POST" "/login"] in
  let st := run (init {[ TOKEN_KEY := "old" ]}) evs in
  let f := {| request := {| method := "POST"; url := "/login";
                            Authorization := Some "Bearer old"; _retry := false |};
              awaiting := App 7 |} in
  let st' := step st (Respond 0 (Failure (Some 401) "Invalid credentials")) in
  wire st !! 0 = Some f /\
  is_auth_endpoint (request f) = true /\
  localStorage st' !! TOKEN_KEY = None /\
  sent st' = sent st.
Proof.
  intros evs st f st'.
  assert (H : wire st !! 0 = Some f) by (vm_compute; reflexivity).
  split; [exact H|]. split; [reflexivity|].
  destruct (C8_auth_endpoint_401 {[ TOKEN_KEY := "old" ]} evs 0 f "Invalid credentials"
              H eq_refl)
    as (_ & _ & Hl & _ & Hsent & _).
  split; [exact Hl | exact Hsent].
Defined.

End ClientScenarios.

Section BackendScenarios.
Import Backend BackendScenario.

Lemma C5_witness :
  RegisterUserDto_validate (V := Toy.validator) alice = [] /\
  findOne "a@x.com" [] = None /\
  post_register (B := Toy.bcrypt) (V := Toy.validator)
    [ValidationPipe] users_after_alice second_id alice =
  (Err (ConflictException "User with this email already exists"), users_after_alice).
Proof.
  assert (Hv : RegisterUserDto_validate (V := Toy.validator) alice = [])
    by (vm_compute; reflexivity).
  split; [exact Hv|]. split; [reflexivity|].
  destruct (C5_duplicate_email_conflict (B := Toy.bcrypt) (V := Toy.validator)
              [ValidationPipe] [] first_id second_id alice alice []
              Hv Hv eq_refl eq_refl)
    as (_ & Hr & _ & Hu).
  apply injective_projections; [exact Hr | exact Hu].
Defined.

Lemma C6_witness :
  RegisterUserDto_validate (V := Toy.validator) alice = [] /\
  exists created saved,
    post_register (B := Toy.bcrypt) (V := Toy.validator) [] [] first_id alice
      = (Ok created, [saved]) /\
    User.passwordHash saved <> "password1" /\
    created !! "passwordHash" = None.
Proof.
  assert (Hv : RegisterUserDto_validate (V := Toy.validator) alice = [])
    by (vm_compute; reflexivity).
  split; [exact Hv|].
  destruct (C6_password_stored_hashed (B := Toy.bcrypt) (V := Toy.validator)
              (HB := toy_bcrypt_spec) [] [] first_id alice Hv eq_refl)
    as (created & saved & H1 & _ & H3 & _ & _ & H6 & _).
  exists created, saved. split; [exact H1|]. split; [exact H3 | exact H6].
Defined.

Lemma C4_witness :
  findOne "a@x.com" [] = None /\
  (exists result,
      loginUser (B := Toy.bcrypt) (J := Toy.jwt) users_after_alice 1000
        (LoginUserDto.mk "a@x.com" "password1") = Ok result /\
      jwt_decode (JwtService := Toy.jwt) (accessToken result) =
      Some (JwtPayload.mk None (Some 1000) "a@x.com" "u1")) /\
  status_of POST
    (loginUser (B := Toy.bcrypt) (J := Toy.jwt) users_after_alice 1000
       (LoginUserDto.mk "a@x.com" "password1")) = 201 /\
  bcrypt_compare (Bcrypt := Toy.bcrypt) "password2"
    (bcrypt_hash (Bcrypt := Toy.bcrypt) "password1" 10 "s1") = false /\
  loginUser (B := Toy.bcrypt) (J := Toy.jwt) users_after_alice 1001
    (LoginUserDto.mk "a@x.com" "password2") =
  Err (UnauthorizedException "Invalid credentials").
Proof.
  split; [reflexivity|].
  destruct (C4_login_after_registration (B := Toy.bcrypt) (J := Toy.jwt)
              (HB := toy_bcrypt_spec) (HJ := toy_jwt_spec)
              [] first_id alice [] 1000 eq_refl)
    as ((saved & token & _ & _ & Hl & Hs & Hd & _) & Hw).
  split; [eexists; split; [exact Hl | exact Hd]|].
  split; [exact Hs|].
  assert (Hc : bcrypt_compare (Bcrypt := Toy.bcrypt) "password2"
                 (bcrypt_hash (Bcrypt := Toy.bcrypt) "password1" 10 "s1") = false)
    by (vm_compute; reflexivity).
  split; [exact Hc|].
  exact (proj1 (Hw "password2" 1001 Hc)).
Defined.

Lemma C9_witness :
  findOne "b@x.com" users_after_alice = None /\
  loginUser (B := Toy.bcrypt) (J := Toy.jwt) users_after_alice 5
    (LoginUserDto.mk "b@x.com" "password1") =
  loginUser (B := Toy.bcrypt) (J := Toy.jwt) users_after_alice 6
    (LoginUserDto.mk "a@x.com" "password2").
Proof.
  assert (H : findOne "b@x.com" users_after_alice = None) by (vm_compute; reflexivity).
  split; [exact H|].
  refine (proj1 (C9_login_failures_indistinguishable (B := Toy.bcrypt) (J := Toy.jwt)
                   users_after_alice 5 6
                   (LoginUserDto.mk "b@x.com" "password1")
                   (LoginUserDto.mk "a@x.com" "password2")
                   (User.mk "u1" "a@x.com" (String "#"%char "password1") None)
                   H _ _)); vm_compute; reflexivity.
Defined.

End BackendScenarios.

(* ===================================================================== *)
(** * Backend: further properties *)
(* ===================================================================== *)

Section BackendMore.
Import Backend.
Context {B : Bcrypt} {J : JwtService} {V : Validator}.

(** *** The collection under the service *)

Lemma findOne_None e (l : list User.t) :
  findOne e l = None <-> ~ In e (map User.email l).
Proof.
  unfold findOne. induction l as [|u l IH]; simpl; [tauto|].
  destruct (bool_decide (User.email u = e)) eqn:E.
  - apply bool_decide_eq_true in E. split; [discriminate | tauto].
  - apply bool_decide_eq_false in E. rewrite IH. tauto.
Qed.

Lemma call_grows users c :
  call users c = users \/
  exists saved, call users c = users ++ [saved] /\
                ~ In (User.email saved) (map User.email users).
Proof.
  destruct c as [fresh d | now d]; simpl; [|left; reflexivity].
  unfold registerUser.
  destruct (findOne (RegisterUserDto.email d) users) eqn:E; simpl.
  - left. reflexivity.
  - right. eexists. split; [reflexivity|]. simpl. apply findOne_None, E.
Qed.

(** X10: The service keeps emails unique: when no two documents of the
    collection share an email, none do after any sequence of calls. *)
Theorem emails_stay_unique (cs : list Call) (users : list User.t) :
  NoDup (map User.email users) ->
  NoDup (map User.email (calls users cs)).
Proof.
  revert users. unfold calls.
  induction cs as [|c cs IH]; simpl; intros users H; [exact H|].
  apply IH. destruct (call_grows users c) as [-> | (saved & -> & Hnew)]; [exact H|].
  rewrite map_app. simpl. apply NoDup_app. split; [exact H|]. split.
  - intros e He Hin. apply list_elem_of_In in He.
    apply list_elem_of_In in Hin. simpl in Hin. destruct Hin as [<-|[]].
    contradiction.
  - apply NoDup_singleton.
Qed.

(** X11: The service only appends: after any sequence of calls the collection
    starts with the documents it had, unchanged and in the same order, and
    has grown by at most one document per registration. *)
Theorem collection_append_only (cs : list Call) (users : list User.t) :
  exists added,
    calls users cs = users ++ added /\
    length added <=
    length (List.filter (fun c => match c with Register _ _ => true | _ => false end) cs).
Proof.
  revert users. unfold calls.
  induction cs as [|c cs IH]; simpl; intros users.
  - exists []. rewrite app_nil_r. split; [reflexivity | simpl; lia].
  - destruct (IH (call users c)) as (added & E & Hlen). rewrite E.
    destruct c as [fresh d | now d]; simpl in *.
    + unfold registerUser.
      destruct (findOne (RegisterUserDto.email d) users); simpl.
      * exists added. split; [reflexivity | lia].
      * eexists (_ :: added). rewrite <- app_assoc. split; [reflexivity | simpl; lia].
    + exists added. split; [reflexivity | exact Hlen].
Qed.

(** *** Login *)

(** X12: A login succeeds only for a stored document found under the email of
    the request whose hash bcrypt.compare accepts; the user object it
    returns has the email of the request and no passwordHash, and the token
    decodes to the _id, email and name of that document. *)
Theorem login_success_sound
    {HJ : JwtSpec J}
    (users : list User.t) (now : nat) (loginData : LoginUserDto.t)
    (result : LoginResult) :
  loginUser users now loginData = Ok result ->
  exists u,
    findOne (LoginUserDto.email loginData) users = Some u /\
    In u users /\
    User.email u = LoginUserDto.email loginData /\
    bcrypt_compare (LoginUserDto.password loginData) (User.passwordHash u) = true /\
    user result !! "passwordHash" = None /\
    user result !! "email" = Some (LoginUserDto.email loginData) /\
    jwt_decode (accessToken result) =
    Some (JwtPayload.mk (User.name u) (Some now) (User.email u) (User._id u)).
Proof.
  unfold loginUser. intros H.
  destruct (findOne (LoginUserDto.email loginData) users) as [u|] eqn:Hf;
    [|discriminate].
  destruct (bcrypt_compare _ _) eqn:Hc; simpl in H; [|discriminate].
  injection H as <-. exists u. simpl.
  pose proof (findOne_email _ _ _ Hf) as He.
  split; [reflexivity|]. split.
  { unfold findOne in Hf. apply find_some in Hf. tauto. }
  split; [exact He|]. split; [exact Hc|].
  split; [apply toJSON_without_hash|].
  split; [rewrite toJSON_email, He; reflexivity | apply decode_sign].
Qed.

(** *** Errors of the two handlers as the application is bootstrapped *)

(** X13: As bootstrapped, no pipe is bound: a body that carries an email and a
    password, both strings, is handed to the service whatever they are.  For
    such a body register fails only with the 409 conflict, and only when the
    email is taken; login fails only with the 401; neither answers with a
    validation error.  A body without a password is not of this kind. *)
Theorem handlers_never_reject_body
    (FRONTEND_URL : option string) (PORT : option nat)
    (users : list User.t) (fresh : Fresh) (now : nat)
    (registrationData : RegisterUserDto.t) (loginData : LoginUserDto.t) :
  let ps := boundPipes (bootstrap FRONTEND_URL PORT) in
  post_register ps users fresh registrationData =
    registerUser users fresh registrationData /\
  post_login ps users now loginData = loginUser users now loginData /\
  (forall e, fst (post_register ps users fresh registrationData) = Err e ->
             e = ConflictException "User with this email already exists" /\
             In (RegisterUserDto.email registrationData) (map User.email users)) /\
  (forall e, post_login ps users now loginData = Err e ->
             e = UnauthorizedException "Invalid credentials").
Proof.
  simpl. split; [reflexivity|]. split; [reflexivity|]. split.
  - intros e. unfold post_register, registerUser. simpl.
    destruct (findOne (RegisterUserDto.email registrationData) users) as [u|] eqn:Hf;
      simpl; [|discriminate].
    intros [= <-]. split; [reflexivity|].
    pose proof (findOne_email _ _ _ Hf) as <-.
    unfold findOne in Hf. apply find_some in Hf as [Hin _].
    apply in_map, Hin.
  - intros e. unfold post_login, loginUser. simpl.
    destruct (findOne _ _); [destruct (bcrypt_compare _ _); simpl|];
      [discriminate | |]; intros [= <-]; reflexivity.
Qed.

(** X22: A body without a password is not stopped by validation either.
    Registration answers the 409 when the email is stored, and otherwise the
    500 of an unhandled error, bcrypt.hash rejecting: never a 400, and no
    user is stored.  Login answers the 401 when the email is unknown, and
    otherwise the 500, bcrypt.compare rejecting.  On a body with a password
    the two methods are AuthenticationService on the DTO. *)
Theorem missing_password_answers_500
    (FRONTEND_URL : option string) (PORT : option nat)
    (users : list User.t) (fresh : Fresh) (now : nat)
    (email : string) (name : option string) :
  let body := {| Untyped.email := email; Untyped.password := None;
                 Untyped.name := name |} in
  boundPipes (bootstrap FRONTEND_URL PORT) = [] /\
  (forall p,
      Untyped.registerUser_body users fresh
        {| Untyped.email := email; Untyped.password := Some p; Untyped.name := name |} =
      registerUser users fresh (RegisterUserDto.mk email p name)) /\
  (forall p,
      Untyped.loginUser_body users now
        {| Untyped.email := email; Untyped.password := Some p; Untyped.name := name |} =
      loginUser users now (LoginUserDto.mk email p)) /\
  snd (Untyped.registerUser_body users fresh body) = users /\
  (In email (map User.email users) ->
   fst (Untyped.registerUser_body users fresh body) =
     Err (ConflictException "User with this email already exists") /\
   Untyped.loginUser_body users now body = Err InternalServerError /\
   status_of POST (Untyped.loginUser_body users now body) = 500) /\
  (~ In email (map User.email users) ->
   fst (Untyped.registerUser_body users fresh body) = Err InternalServerError /\
   status_of POST (fst (Untyped.registerUser_body users fresh body)) = 500 /\
   Untyped.loginUser_body users now body =
     Err (UnauthorizedException "Invalid credentials")).
Proof.
  intros body. subst body.
  split; [reflexivity|]. split; [reflexivity|]. split; [reflexivity|].
  unfold Untyped.registerUser_body, Untyped.loginUser_body.
  cbn [Untyped.email Untyped.password Untyped.name].
  destruct (findOne email users) as [u|] eqn:Hf.
  - split; [reflexivity|]. split.
    + intros _. repeat split.
    + intros Hn. apply findOne_None in Hn. congruence.
  - split; [reflexivity|]. split.
    + intros Hin. apply findOne_None in Hf. contradiction.
    + intros _. repeat split.
Qed.

(** *** The DTO classes *)

(** X14: A registration body has no violation exactly when its email passes
    IsEmail and is not empty and its password has at least 8 characters; a
    login body, when its email does and its password is not empty.  So the
    email and password of a valid registration always make a valid login. *)
Theorem dto_validity (d : RegisterUserDto.t) (l : LoginUserDto.t) :
  (RegisterUserDto_validate d = [] <->
   isEmail (RegisterUserDto.email d) = true /\
   RegisterUserDto.email d <> "" /\
   8 <= String.length (RegisterUserDto.password d)) /\
  (LoginUserDto_validate l = [] <->
   isEmail (LoginUserDto.email l) = true /\
   LoginUserDto.email l <> "" /\
   LoginUserDto.password l <> "") /\
  (RegisterUserDto_validate d = [] ->
   LoginUserDto_validate
     (LoginUserDto.mk (RegisterUserDto.email d) (RegisterUserDto.password d)) = []).
Proof.
  assert (Hif : forall (b : bool) (x : string),
            (if b then [] else [x]) = [] <-> b = true).
  { intros [] x; split; congruence. }
  assert (Hif' : forall (b : bool) (x : string),
            (if b then [x] else []) = [] <-> b = false).
  { intros [] x; split; congruence. }
  assert (Hreg : forall d, RegisterUserDto_validate d = [] <->
            isEmail (RegisterUserDto.email d) = true /\
            RegisterUserDto.email d <> "" /\
            8 <= String.length (RegisterUserDto.password d)).
  { intros [e p n]. unfold RegisterUserDto_validate. simpl.
    rewrite !app_nil, Hif, !Hif', !bool_decide_eq_false, Nat.ltb_ge.
    split; [tauto|]. intros (H1 & H2 & H3). repeat split; auto.
    intros ->. simpl in H3. lia. }
  assert (Hlog : forall l, LoginUserDto_validate l = [] <->
            isEmail (LoginUserDto.email l) = true /\
            LoginUserDto.email l <> "" /\
            LoginUserDto.password l <> "").
  { intros [e p]. unfold LoginUserDto_validate. simpl.
    rewrite !app_nil, Hif, !Hif', !bool_decide_eq_false, Nat.ltb_ge.
    split; [tauto|]. intros (H1 & H2 & H3). repeat split; auto.
    destruct p; [congruence | simpl; lia]. }
  split; [apply Hreg|]. split; [apply Hlog|].
  intros H. apply Hreg in H as (H1 & H2 & H3). apply Hlog. simpl.
  split; [exact H1|]. split; [exact H2|].
  intros E. rewrite E in H3. simpl in H3. lia.
Qed.


(** *** The password rule of the form and of the DTO *)

(** X15: A password the DTO accepts passes the form; a password that passes the
    form violates the DTO exactly when it has 6 or 7 characters. *)
Theorem form_password_rule_weaker (d : RegisterUserDto.t) :
  (RegisterUserDto_validate d = [] ->
   RegisterForm.password_error (RegisterUserDto.password d) = None) /\
  (RegisterForm.password_error (RegisterUserDto.password d) = None ->
   (In "Password must be at least 8 characters long." (RegisterUserDto_validate d) <->
    String.length (RegisterUserDto.password d) = 6 \/
    String.length (RegisterUserDto.password d) = 7)).
Proof.
  destruct d as [e p n]. unfold RegisterForm.password_error. simpl. split.
  - intros H. apply (proj1 (dto_validity _ (LoginUserDto.mk "" ""))) in H
      as (_ & _ & H). simpl in H.
    destruct (bool_decide (p = "")) eqn:E.
    + apply bool_decide_eq_true in E. subst p. simpl in H. lia.
    + destruct (Nat.ltb (String.length p) 6) eqn:El; [|reflexivity].
      apply Nat.ltb_lt in El. lia.
  - destruct (bool_decide (p = "")) eqn:E; [discriminate|].
    destruct (Nat.ltb (String.length p) 6) eqn:El; [discriminate|]. intros _.
    apply Nat.ltb_ge in El. unfold RegisterUserDto_validate. simpl. rewrite E.
    rewrite !in_app_iff.
    destruct (Nat.ltb (String.length p) 8) eqn:E8;
      [apply Nat.ltb_lt in E8 | apply Nat.ltb_ge in E8].
    + split; [lia|]. intros _. right. right. left. left. reflexivity.
    + split; [|lia].
      destruct (isEmail e), (bool_decide (e = "")); simpl;
        intros H; repeat (destruct H as [H|H]; try discriminate H); tauto.
Qed.

(** *** The profile of a logged-in user *)

(** X16: After a registration and any further calls to the service, the token
    of a login with the registered credentials, decoded and given to
    getProfile, shows the _id, the email and the issue time, and the
    registered name, or N/A when the name was left out or empty. *)
Theorem profile_of_login_token
    {HB : BcryptSpec B} {HJ : JwtSpec J}
    (users : list User.t) (fresh : Fresh) (d : RegisterUserDto.t)
    (cs : list Call) (now : nat) :
  findOne (RegisterUserDto.email d) users = None ->
  let later := calls (snd (registerUser users fresh d)) cs in
  exists result payload,
    loginUser later now
      (LoginUserDto.mk (RegisterUserDto.email d) (RegisterUserDto.password d)) =
    Ok result /\
    jwt_decode (accessToken result) = Some payload /\
    Profile.authenticatedUser (Profile.getProfile payload) =
    {| Profile.sub := objectId fresh;
       Profile.email := RegisterUserDto.email d;
       Profile.name := match RegisterUserDto.name d with
                       | Some n => if bool_decide (n = "") then "N/A" else n
                       | None => "N/A"
                       end;
       Profile.iat := Some now |}.
Proof.
  intros Hnew later. subst later.
  rewrite (registerUser_new _ _ _ Hnew). simpl.
  set (saved := User.mk _ _ _ _).
  assert (Hin : findOne (RegisterUserDto.email d) (calls (users ++ [saved]) cs)
                = Some saved).
  { apply calls_keep. rewrite findOne_app, Hnew. unfold findOne. simpl.
    rewrite bool_decide_eq_true_2; reflexivity. }
  unfold loginUser. simpl. rewrite Hin. simpl. rewrite compare_hash. simpl.
  eexists _, _. split; [reflexivity|]. split; [apply decode_sign|]. reflexivity.
Qed.

(** *** What the front end shows for an error of the server *)

Lemma run_pipes_error ps errors e :
  run_pipes ps errors = Some e -> e = BadRequestException errors.
Proof.
  induction ps as [|[] ps IH]; simpl; [discriminate|].
  destruct errors; [exact IH | congruence].
Qed.

(** X17: The error apiCall throws carries the message of the server: the text
    of the conflict for a failed registration, 'Invalid credentials' for a
    failed login, and for a body a ValidationPipe rejects, the violations of
    the DTO joined with ", ".  Without a message in the response it
    carries the message of the axios error. *)
Theorem apiCall_error_of_server
    (ps : list Pipe) (users : list User.t) (fresh : Fresh) (now : nat)
    (d : RegisterUserDto.t) (l : LoginUserDto.t) (axios_message : string) :
  (forall e, fst (registerUser users fresh d) = Err e ->
     ApiCall.apiCall_error (ApiCall.body_message e) axios_message =
     "User with this email already exists") /\
  (forall e, loginUser users now l = Err e ->
     ApiCall.apiCall_error (ApiCall.body_message e) axios_message =
     "Invalid credentials") /\
  (forall e, run_pipes ps (RegisterUserDto_validate d) = Some e ->
     ApiCall.apiCall_error (ApiCall.body_message e) axios_message =
     String.concat ", " (RegisterUserDto_validate d)) /\
  ApiCall.apiCall_error ApiCall.Missing axios_message = axios_message /\
  ApiCall.apiCall_error (ApiCall.Text "") axios_message = axios_message /\
  ApiCall.apiCall_error (ApiCall.Array []) axios_message = "".
Proof.
  split; [|split; [|split]].
  - intros e. unfold registerUser.
    destruct (findOne _ _); simpl; [|discriminate]. intros [= <-]. reflexivity.
  - intros e. unfold loginUser.
    destruct (findOne _ _); [destruct (bcrypt_compare _ _); simpl|];
      [discriminate | |]; intros [= <-]; reflexivity.
  - intros e H. apply run_pipes_error in H. subst e. reflexivity.
  - repeat split.
Qed.

End BackendMore.

(* ===================================================================== *)
(** * Configuration and notices: properties *)
(* ===================================================================== *)

Section ConfigurationProofs.
Import Backend AppModule.

(** X18: The factory throws exactly when MONGO_URI is unset or empty and the
    environment, read from the config, else from the process, else
    development, is production.  Otherwise it connects to MONGO_URI when
    that is set, and to the local user_registration database when not; the
    URI is never empty. *)
Theorem mongoose_factory_cases (MONGO_URI NODE_ENV env_NODE_ENV : option string) :
  let nodeEnv := truthy_or NODE_ENV (truthy_or env_NODE_ENV "development") in
  (mongooseFactory MONGO_URI NODE_ENV env_NODE_ENV =
     Throws "MONGO_URI must be provided in production environment" <->
   unset MONGO_URI /\ nodeEnv = "production") /\
  (forall u, mongooseFactory MONGO_URI NODE_ENV env_NODE_ENV = Uri u ->
     u <> "" /\
     (unset MONGO_URI -> u = "mongodb://localhost:27017/user_registration") /\
     (~ unset MONGO_URI -> MONGO_URI = Some u)).
Proof.
  intros nodeEnv. unfold mongooseFactory. fold nodeEnv.
  assert (Hdev : forall c : bool,
            (if c then Throws "MONGO_URI must be provided in production environment"
             else Uri "mongodb://localhost:27017/user_registration") =
            Throws "MONGO_URI must be provided in production environment" <->
            c = true).
  { intros []; split; congruence. }
  assert (Hu : forall (c : bool) u,
            (if c then Throws "MONGO_URI must be provided in production environment"
             else Uri "mongodb://localhost:27017/user_registration") = Uri u ->
            u = "mongodb://localhost:27017/user_registration").
  { intros [] u; congruence. }
  destruct MONGO_URI as [m|]; [destruct (bool_decide (m = "")) eqn:Em|]; simpl.
  - apply bool_decide_eq_true in Em. subst m.
    rewrite Hdev, bool_decide_eq_true. split.
    + split; [intros H; split; [right; reflexivity | exact H] | tauto].
    + intros u H. apply Hu in H. subst u. split; [discriminate|].
      split; [reflexivity|]. intros Hn. exfalso. apply Hn. right. reflexivity.
  - apply bool_decide_eq_false in Em. split.
    + split; [discriminate|]. intros [[H|H] _]; congruence.
    + intros u [= <-]. split; [exact Em|].
      split; [intros [H|H]; congruence | reflexivity].
  - rewrite Hdev, bool_decide_eq_true. split.
    + split; [intros H; split; [left; reflexivity | exact H] | tauto].
    + intros u H. apply Hu in H. subst u. split; [discriminate|].
      split; [reflexivity|]. intros Hn. exfalso. apply Hn. left. reflexivity.
Qed.

(** X19: The URI bootstrap() logs is the one the application connects to
    exactly when MONGO_URI is set and not empty; otherwise the log names
    user_db while the connection goes to user_registration. *)
Theorem logged_uri_is_connection_iff_set
    (MONGO_URI NODE_ENV env_NODE_ENV : option string) (u : string) :
  mongooseFactory MONGO_URI NODE_ENV env_NODE_ENV = Uri u ->
  (logged_mongoUri MONGO_URI = u <-> ~ unset MONGO_URI) /\
  (unset MONGO_URI ->
   logged_mongoUri MONGO_URI = "mongodb://localhost:27017/user_db" /\
   u = "mongodb://localhost:27017/user_registration").
Proof.
  unfold mongooseFactory, logged_mongoUri, truthy_or, unset.
  destruct MONGO_URI as [m|]; [destruct (bool_decide (m = "")) eqn:Em|];
    try apply bool_decide_eq_true in Em; try apply bool_decide_eq_false in Em;
    simpl; try (destruct (bool_decide (_ = "production")));
    intros H; try discriminate H; injection H as <-.
  - subst m. split; [split; [discriminate | intros H; exfalso; apply H; auto]|].
    intros _. split; reflexivity.
  - split; [split; [intros _ [H|H]; congruence | reflexivity]|].
    intros [H|H]; congruence.
  - split; [split; [discriminate | intros H; exfalso; apply H; auto]|].
    intros _. split; reflexivity.
Qed.

End ConfigurationProofs.

Section MessageProofs.
Import UseMessage.

(** X20: A message shown while the timer of an earlier one is pending is
    blanked when that earlier timer runs, less than five seconds after it
    was shown; its type stays, and its own timer is still pending. *)
Theorem later_message_blanked_early
    (st : State) (t1 t2 now : N) (m1 ty1 m2 ty2 : string) :
  (t1 + 5000 <= now)%N ->
  (now < t2 + 5000)%N ->
  let st' := elapse now (displayMessage t2 m2 ty2 (displayMessage t1 m1 ty1 st)) in
  message st' = "" /\ messageType st' = ty2 /\ In (t2 + 5000)%N (timers st') /\
  (now - t2 < 5000)%N.
Proof.
  intros H1 H2 st'. subst st'. unfold elapse, displayMessage. simpl.
  rewrite !existsb_app. simpl. apply N.leb_le in H1. rewrite H1.
  rewrite orb_true_r. simpl.
  split; [reflexivity|]. split; [reflexivity|]. split; [|lia].
  apply filter_In. split; [|apply N.ltb_lt, H2].
  apply in_or_app. right. left. reflexivity.
Qed.

End MessageProofs.

(* ===================================================================== *)
(** * Client request coordinator: further properties *)
(* ===================================================================== *)

Section ClientMore.
Import Client Trace.

(** *** The request interceptor *)

(** X1: The request interceptor sets the header to the stored token exactly
    when the token is a non-empty string and the request has no non-empty
    header; otherwise it returns the config as it is.  It touches nothing
    but the header, and running it twice is running it once. *)
Theorem requestInterceptor_cases (st : State) (c : RequestConfig) :
  (forall token,
      localStorage st !! TOKEN_KEY = Some token -> token <> "" ->
      truthy (Authorization c) = false ->
      requestInterceptor st c = set_Authorization (Some ("Bearer " +:+ token)) c) /\
  (truthy (localStorage st !! TOKEN_KEY) = false \/ truthy (Authorization c) = true ->
   requestInterceptor st c = c) /\
  requestInterceptor st (requestInterceptor st c) = requestInterceptor st c /\
  method (requestInterceptor st c) = method c /\
  url (requestInterceptor st c) = url c /\
  _retry (requestInterceptor st c) = _retry c.
Proof.
  unfold requestInterceptor.
  destruct (localStorage st !! TOKEN_KEY) as [t|] eqn:Ht; simpl.
  - destruct (bool_decide (t = "")) eqn:Et; simpl.
    + apply bool_decide_eq_true in Et.
      repeat split; auto. intros token [= <-] Hne. contradiction.
    + destruct (truthy (Authorization c)) eqn:Ea; simpl.
      * rewrite Ea. repeat split; auto. intros token _ _ H. discriminate.
      * repeat split; auto.
        -- intros token [= <-] _ _. reflexivity.
        -- intros [H|H]; discriminate.
  - repeat split; auto. intros token H. discriminate.
Qed.

(** *** Failures other than a 401 *)


(** *** The token after a refresh *)

(** X3: When the refresh exchange succeeds, the accessToken of the response is
    stored, and the next request the application sends carries it; a
    response without accessToken stores the string undefined, which is sent
    as a token; an empty accessToken is stored and no header is sent. *)
Theorem refreshed_token_is_used
    (st : State) (j : nat) (f : InFlight) (originalRequest : RequestConfig) (k : nat)
    (data : gmap string string) (k' : nat) (m u : string) :
  wire st !! j = Some f ->
  awaiting f = Frame originalRequest k ->
  let token := template (property (data !! "accessToken")) in
  let st1 := step st (Respond j (Success data)) in
  let st2 := step st1 (Call k' m u) in
  localStorage st1 !! TOKEN_KEY = Some token /\
  (data !! "accessToken" = None -> token = "undefined") /\
  isAuthenticated st1 = isAuthenticated st /\
  sent st1 !! length (sent st) =
    Some (set_Authorization (Some ("Bearer " +:+ token)) originalRequest) /\
  last (sent st2) =
    Some {| method := m; url := u;
            Authorization := if bool_decide (token = "") then None
                             else Some ("Bearer " +:+ token);
            _retry := false |}.
Proof.
  intros Hj Hk token st1 st2. subst st2 st1.
  rewrite (step_refresh_fulfilled _ _ _ _ _ data Hj Hk).
  rewrite refresh_fulfilled_eq. fold token.
  cbn [step]. unfold dispatch.
  cbn [sent set_sent set_wire localStorage isAuthenticated set_failedQueue
       set_isRefreshing set_localStorage].
  split; [apply lookup_insert_eq|].
  split; [intros H; subst token; rewrite H; reflexivity|].
  split; [reflexivity|]. split; [apply list_lookup_middle; reflexivity|].
  rewrite last_snoc. f_equal. unfold requestInterceptor.
  cbn [localStorage set_sent set_wire set_failedQueue set_isRefreshing
       set_localStorage]. rewrite lookup_insert_eq. cbn [truthy Authorization].
  destruct (bool_decide (token = "")); reflexivity.
Qed.

(** X21: When the refresh response carries no accessToken, the string
    undefined is stored; the request that started the refresh is sent again
    first, with the header Bearer undefined, and then every queued request,
    in queue order, with Bearer null, the default of processQueue's second
    parameter.  All are marked retried, and nobody is rejected. *)
Theorem refresh_without_token
    (st : State) (j : nat) (f : InFlight) (originalRequest : RequestConfig) (k : nat)
    (data : gmap string string) :
  wire st !! j = Some f ->
  awaiting f = Frame originalRequest k ->
  _retry originalRequest = true ->
  data !! "accessToken" = None ->
  let st' := step st (Respond j (Success data)) in
  localStorage st' !! TOKEN_KEY = Some "undefined" /\
  sent st' =
    sent st
    ++ set_Authorization (Some "Bearer undefined") originalRequest
       :: map (fun d => replay "null" (waiting d)) (failedQueue st) /\
  Forall (fun c => _retry c = true)
    (set_Authorization (Some "Bearer undefined") originalRequest
       :: map (fun d => replay "null" (waiting d)) (failedQueue st)) /\
  (failedQueue st <> [] ->
   exists c, In c (sent st') /\ Authorization c = Some "Bearer null") /\
  settled st' = settled st /\
  failedQueue st' = [] /\
  isRefreshing st' = false.
Proof.
  intros Hj Hk Hr Hdata st'. subst st'.
  rewrite (step_refresh_fulfilled _ _ _ _ _ data Hj Hk).
  rewrite refresh_fulfilled_eq, Hdata.
  cbn [property template or_null sent settled failedQueue isRefreshing localStorage
       set_sent set_wire set_failedQueue set_isRefreshing set_localStorage].
  split; [apply lookup_insert_eq|]. split; [reflexivity|]. split.
  { constructor; [exact Hr|]. apply Forall_map, Forall_forall. intros d _. reflexivity. }
  split; [|repeat split].
  intros Hq. destruct (failedQueue st) as [|d q]; [contradiction|].
  exists (replay "null" (waiting d)). split; [|reflexivity].
  apply in_or_app. right. right. left. reflexivity.
Qed.

(** *** Login, logout and the header *)

(** X4: After a login with a non-empty token every request the application
    sends carries that token; after a logout the token is gone from
    localStorage, other keys are kept, and requests are sent without header. *)
Theorem header_follows_auth_state
    (st : State) (accessToken : string) (userData : gmap string string)
    (k : nat) (m u : string) :
  let fresh_request h :=
    {| method := m; url := u; Authorization := h; _retry := false |} in
  (accessToken <> "" ->
   let st1 := step st (LoggedIn accessToken userData) in
   isAuthenticated st1 = true /\
   last (sent (step st1 (Call k m u))) =
   Some (fresh_request (Some ("Bearer " +:+ accessToken)))) /\
  (let st1 := step st LoggedOut in
   isAuthenticated st1 = false /\
   localStorage st1 !! TOKEN_KEY = None /\
   (forall key, key <> TOKEN_KEY -> localStorage st1 !! key = localStorage st !! key) /\
   last (sent (step st1 (Call k m u))) = Some (fresh_request None)).
Proof.
  intros fresh_request. split.
  - intros Hne st1. subst st1. split; [reflexivity|].
    cbn [step]. unfold dispatch. cbn [sent set_sent set_wire]. rewrite last_snoc.
    f_equal. unfold requestInterceptor. cbn.
    rewrite lookup_insert_eq. cbn.
    rewrite bool_decide_eq_false_2 by exact Hne. reflexivity.
  - intros st1. subst st1. split; [reflexivity|].
    split; [apply lookup_delete_eq|].
    split; [intros key Hkey; cbn; apply lookup_delete_ne; congruence|].
    cbn [step]. unfold dispatch. cbn [sent set_sent set_wire]. rewrite last_snoc.
    f_equal. unfold requestInterceptor. cbn.
    rewrite lookup_delete_eq. reflexivity.
Qed.

(** X5: A refresh that succeeds after the user logged out writes its token to
    localStorage again, while the page stays logged out; loaded again, the
    page then starts as authenticated, unless that token is empty. *)
Theorem refresh_after_logout_stores_token
    (st : State) (j : nat) (f : InFlight) (originalRequest : RequestConfig) (k : nat)
    (data : gmap string string) :
  wire st !! j = Some f ->
  awaiting f = Frame originalRequest k ->
  let token := template (property (data !! "accessToken")) in
  let st1 := step st LoggedOut in
  let st2 := step st1 (Respond j (Success data)) in
  localStorage st1 !! TOKEN_KEY = None /\
  isAuthenticated st2 = false /\
  user st2 = None /\
  localStorage st2 !! TOKEN_KEY = Some token /\
  isAuthenticated (init (localStorage st2)) = negb (bool_decide (token = "")).
Proof.
  intros Hj Hk token st1 st2. subst st2 st1.
  split; [apply lookup_delete_eq|].
  rewrite (step_refresh_fulfilled (step st LoggedOut) j f originalRequest k data Hj Hk).
  rewrite refresh_fulfilled_eq. fold token. cbn.
  split; [reflexivity|]. split; [reflexivity|].
  rewrite lookup_insert_eq. split; reflexivity.
Qed.

(** X6: The session is kept in localStorage alone: a page loaded after a login
    with a non-empty token starts authenticated on the profile tab, with no
    user data yet; a page loaded after a logout starts on the login tab. *)
Theorem session_survives_reload
    (st : State) (accessToken : string) (userData : gmap string string) :
  (accessToken <> "" ->
   let page := init (localStorage (step st (LoggedIn accessToken userData))) in
   isAuthenticated page = true /\ activeTab page = "profile" /\ user page = None) /\
  (let page := init (localStorage (step st LoggedOut)) in
   isAuthenticated page = false /\ activeTab page = "login").
Proof.
  split.
  - intros Hne page. subst page. unfold init. cbn [step displayMessage setAuthState
      localStorage set_notice set_auth set_localStorage].
    rewrite lookup_insert_eq. cbn [truthy].
    rewrite bool_decide_eq_false_2 by exact Hne. repeat split.
  - intros page. subst page. unfold init. cbn [step displayMessage clearAuthState
      localStorage set_notice set_auth set_localStorage].
    rewrite lookup_delete_eq. repeat split.
Qed.

(** *** The flag, the queue and the wire *)

(** X7: In every reachable state the flag is set exactly when one refresh
    exchange is on the wire and clear exactly when none is; requests wait in
    the queue only while an exchange is in flight, and none of them is a
    request to an auth endpoint. *)
Theorem queue_only_while_refreshing (stored : gmap string string) (evs : list Event) :
  let st := run (init stored) evs in
  (isRefreshing st = true <-> refreshes_in_flight st = 1) /\
  (isRefreshing st = false <-> refreshes_in_flight st = 0) /\
  (failedQueue st <> [] -> isRefreshing st = true /\ refreshes_in_flight st = 1) /\
  Forall (fun d => is_auth_endpoint (waiting d) = false) (failedQueue st).
Proof.
  intros st. destruct (wf_reachable stored evs) as [a b w q]. fold st in a, b, w, q.
  rewrite a. destruct (isRefreshing st) eqn:E.
  - split; [tauto|]. split; [split; discriminate|]. split; [tauto | exact q].
  - split; [split; discriminate|]. split; [tauto|]. split; [|exact q].
    intros Hq. exfalso. apply Hq, b. reflexivity.
Qed.

End ClientMore.

Section ClientRuns.
Import Client Trace.

(** *** What one answer does to the wire, the queue and the log *)

Lemma same_traffic_refl st : same_traffic st st.
Proof. repeat split. Qed.

Lemma same_traffic_clear st : same_traffic st (clearAuthState st).
Proof. repeat split. Qed.

Lemma step_answered st i r f :
  wf st -> wire st !! i = Some f -> answered st i f (step st (Respond i r)).
Proof.
  intros Hwf Hi. cbn [step]. rewrite Hi.
  destruct r as [data | s m]; destruct (awaiting f) as [k | originalRequest k] eqn:Hk.
  - eapply ans_settle; [exact Hk | apply same_traffic_refl].
  - eapply ans_fulfilled; exact Hk.
  - unfold responseInterceptor. cbn [config status].
    destruct (bool_decide (s = Some 401)); cbn [andb];
      [|eapply ans_settle; [exact Hk | apply same_traffic_refl]].
    destruct (_retry (request f)) eqn:Hr; cbn [negb];
      [eapply ans_settle; [exact Hk | apply same_traffic_refl]|].
    destruct (bool_decide (url (request f) = "/refresh-token")
              || bool_decide (url (request f) = "/login"));
      [eapply ans_settle; [exact Hk | apply same_traffic_clear]|].
    cbn [isRefreshing failedQueue set_wire]. destruct (isRefreshing st) eqn:Hflag.
    + apply ans_queue; assumption.
    + apply ans_start; assumption.
  - destruct (answered_refresh _ _ _ _ _ Hwf Hi Hk) as (_ & _ & Hu & Hr & _).
    rewrite (responseInterceptor_refresh_exchange _ _ _ _ _ Hu Hr).
    eapply ans_rejected; [exact Hk|].
    destruct (bool_decide (s = Some 401));
      [apply same_traffic_clear | apply same_traffic_refl].
Qed.

(** *** No promise is lost and none settles twice *)

Lemma count_occ_delete (l : list InFlight) (k : nat) : forall i f,
  l !! i = Some f ->
  count_occ Nat.eq_dec (map promise_of l) k =
  count_occ Nat.eq_dec [promise_of f] k +
  count_occ Nat.eq_dec (map promise_of (delete i l)) k.
Proof.
  induction l as [|g l IH]; intros [|i] f H; try discriminate.
  - injection H as ->. cbn [delete list_delete map].
    change (promise_of f :: map promise_of l) with ([promise_of f] ++ map promise_of l).
    apply count_occ_app.
  - cbn [delete list_delete map]. cbn in H.
    change (promise_of g :: map promise_of l) with ([promise_of g] ++ map promise_of l).
    change (promise_of g :: map promise_of (delete i l))
      with ([promise_of g] ++ map promise_of (delete i l)).
    rewrite !count_occ_app, (IH _ _ H). lia.
Qed.

Lemma promise_of_replayed token q : map promise_of (map (replayed token) q) = map promise q.
Proof. rewrite map_map. reflexivity. Qed.

Lemma fst_rejected e (q : list Deferred) :
  map fst (map (fun d => (promise d, Rejected e)) q) = map promise q.
Proof. rewrite map_map. reflexivity. Qed.

Lemma occurrences_answered st i f st' k :
  wire st !! i = Some f -> answered st i f st' ->
  occurrences k st' = occurrences k st.
Proof.
  intros Hi H. unfold occurrences, pending.
  rewrite !count_occ_app, (count_occ_delete _ k _ _ Hi).
  destruct H as [k0 o st1 Hk (_ & Hq & Hw & _ & Hs)
                | k0 Hk _ _ | k0 Hk _ _
                | originalRequest k0 data Hk
                | originalRequest k0 e st1 Hk (_ & Hq & Hw & _ & Hs)];
    (assert (Hp : promise_of f = k0) by (unfold promise_of; rewrite Hk; reflexivity));
    rewrite Hp.
  - cbn [settle wire failedQueue settled set_settled]. rewrite Hq, Hw, Hs.
    cbn [wire failedQueue settled set_wire].
    rewrite map_app, count_occ_app. cbn [map fst]. lia.
  - cbn [wire failedQueue settled set_failedQueue set_wire].
    rewrite map_app, count_occ_app. cbn [map promise]. lia.
  - unfold dispatch. cbn [wire failedQueue settled set_sent set_wire set_isRefreshing].
    rewrite map_app, count_occ_app. cbn [map]. unfold promise_of at 2.
    cbn [awaiting]. lia.
  - rewrite refresh_fulfilled_eq.
    cbn [wire failedQueue settled set_sent set_wire set_isRefreshing
         set_failedQueue set_localStorage].
    rewrite !map_app, !count_occ_app. cbn [map]. rewrite promise_of_replayed.
    unfold promise_of at 2. cbn [awaiting count_occ].
    destruct (Nat.eq_dec k0 k); lia.
  - rewrite refresh_rejected_eq.
    cbn [clearAuthState displayMessage wire failedQueue settled set_settled
         set_failedQueue set_isRefreshing set_auth set_localStorage set_notice].
    rewrite Hw, Hs. cbn [wire failedQueue settled set_wire].
    rewrite !map_app, !count_occ_app. cbn [map fst]. rewrite fst_rejected.
    rewrite Hq. cbn [count_occ failedQueue set_wire].
    destruct (Nat.eq_dec k0 k); lia.
Qed.

Lemma occurrences_step st ev k :
  wf st ->
  occurrences k (step st ev) = occurrences k st + count_occ Nat.eq_dec (called [ev]) k.
Proof.
  intros Hwf. destruct ev as [k0 m u | i r | token userData | ].
  - unfold occurrences, pending, called. cbn [step flat_map]. unfold dispatch.
    cbn [wire failedQueue settled set_sent set_wire].
    rewrite app_nil_r, !map_app, !count_occ_app. cbn [map]. unfold promise_of at 2.
    cbn [awaiting]. lia.
  - cbn [called flat_map count_occ]. rewrite Nat.add_0_r.
    destruct (wire st !! i) as [f|] eqn:Hi.
    + apply (occurrences_answered _ i f); [exact Hi | apply step_answered; assumption].
    + cbn [step]. rewrite Hi. reflexivity.
  - cbn [called flat_map count_occ]. rewrite Nat.add_0_r. reflexivity.
  - cbn [called flat_map count_occ]. rewrite Nat.add_0_r. reflexivity.
Qed.

Lemma called_app evs evs' : called (evs ++ evs') = called evs ++ called evs'.
Proof. unfold called. apply flat_map_app. Qed.

(** X8: In every reachable state, the promises on the wire, in the queue and
    settled are, counted with repetition, exactly the promises the
    application was handed: no request is dropped, and none is settled twice
    or settled while still pending. *)
Theorem promises_conserved (stored : gmap string string) (evs : list Event) :
  let st := run (init stored) evs in
  pending st ++ map fst (settled st) ≡ₚ called evs.
Proof.
  intros st. subst st. apply (Permutation_count_occ Nat.eq_dec). intros k.
  induction evs as [|ev evs IH] using rev_ind; [reflexivity|].
  unfold run in *. rewrite fold_left_app. cbn [fold_left].
  change (count_occ Nat.eq_dec
            (pending (step (fold_left step evs (init stored)) ev)
             ++ map fst (settled (step (fold_left step evs (init stored)) ev))) k)
    with (occurrences k (step (fold_left step evs (init stored)) ev)).
  rewrite occurrences_step by apply wf_reachable.
  unfold occurrences. rewrite IH, called_app, count_occ_app. reflexivity.
Qed.


(** *** No retry loop *)

Lemma filter_length_delete (p : InFlight -> bool) (l : list InFlight) : forall i f,
  l !! i = Some f ->
  length (List.filter p l) =
  (if p f then 1 else 0) + length (List.filter p (delete i l)).
Proof.
  induction l as [|g l IH]; intros [|i] f H; simpl in *; try discriminate.
  - injection H as ->. destruct (p f); reflexivity.
  - destruct (p g); simpl; rewrite (IH _ _ H); lia.
Qed.

Lemma first_attempt_replayed token (q : list Deferred) :
  List.filter is_first_attempt (map (replayed token) q) = [].
Proof. induction q as [|d q IH]; simpl; [reflexivity | exact IH]. Qed.

Lemma frames_retried_answered st i f st' :
  wire st !! i = Some f -> answered st i f st' ->
  frames_retried st -> frames_retried st'.
Proof.
  unfold frames_retried. intros Hi H Hfr.
  pose proof (Forall_delete _ _ i Hfr) as Hd.
  destruct H as [k0 o st1 Hk (_ & _ & Hw & _ & _)
                | k0 Hk _ _ | k0 Hk _ _
                | originalRequest k0 data Hk
                | originalRequest k0 e st1 Hk (_ & _ & Hw & _ & _)].
  - cbn [settle wire set_settled]. rewrite Hw. exact Hd.
  - exact Hd.
  - unfold dispatch. cbn [wire set_sent set_wire set_isRefreshing].
    apply Forall_app. split; [exact Hd|]. constructor; [reflexivity | constructor].
  - rewrite refresh_fulfilled_eq.
    cbn [wire set_sent set_wire set_isRefreshing set_failedQueue set_localStorage].
    apply Forall_app. split; [exact Hd|]. constructor; [exact I|].
    apply Forall_map. apply Forall_forall. intros d _. exact I.
  - rewrite refresh_rejected_eq.
    cbn [clearAuthState displayMessage wire set_settled set_failedQueue
         set_isRefreshing set_auth set_localStorage set_notice].
    rewrite Hw. exact Hd.
Qed.

Lemma load_answered st i f st' :
  wire st !! i = Some f -> answered st i f st' ->
  frames_retried st -> load st' <= load st.
Proof.
  intros Hi H Hfr.
  pose proof (filter_length_delete is_first_attempt _ _ _ Hi) as Ea.
  pose proof (filter_length_delete is_refresh _ _ _ Hi) as Er.
  pose proof (Forall_lookup_1 _ _ _ _ Hfr Hi) as Hf. cbn beta in Hf.
  unfold is_first_attempt at 2 in Ea. unfold is_refresh at 2 in Er.
  unfold load, refreshes_in_flight.
  destruct H as [k0 o st1 Hk (_ & Hq & Hw & Hs & _)
                | k0 Hk Hr _ | k0 Hk Hr _
                | originalRequest k0 data Hk
                | originalRequest k0 e st1 Hk (_ & Hq & Hw & Hs & _)];
    rewrite Hk in Ea, Er; try rewrite Hr in Ea; cbn [negb] in Ea.
  - cbn [settle wire failedQueue sent set_settled]. rewrite Hq, Hw, Hs.
    cbn [wire failedQueue sent set_wire]. destruct (negb _); lia.
  - cbn [wire failedQueue sent set_failedQueue set_wire]. rewrite length_app.
    cbn [length]. lia.
  - unfold dispatch. cbn [wire failedQueue sent set_sent set_wire set_isRefreshing].
    rewrite !List.filter_app, !length_app. cbn. lia.
  - rewrite Hk in Hf.
    rewrite refresh_fulfilled_eq.
    cbn [wire failedQueue sent set_sent set_wire set_isRefreshing
         set_failedQueue set_localStorage].
    rewrite !List.filter_app, !length_app.
    cbn [List.filter is_first_attempt is_refresh awaiting request _retry
         set_Authorization]. rewrite Hf. cbn [negb].
    rewrite first_attempt_replayed, in_flight_replayed. cbn [length].
    rewrite length_map. lia.
  - rewrite refresh_rejected_eq.
    cbn [clearAuthState displayMessage wire failedQueue sent set_settled
         set_failedQueue set_isRefreshing set_auth set_localStorage set_notice].
    rewrite Hw, Hs. cbn [wire sent set_wire length]. lia.
Qed.

Lemma load_reachable (stored : gmap string string) (evs : list Event) :
  frames_retried (run (init stored) evs) /\
  load (run (init stored) evs) <= 3 * length (called evs).
Proof.
  induction evs as [|ev evs [IHf IHl]] using rev_ind.
  - split; [constructor | cbn; lia].
  - unfold run in *. rewrite fold_left_app, called_app, length_app. cbn [fold_left].
    pose proof (wf_reachable stored evs) as Hwf. unfold run in Hwf.
    set (st := fold_left step evs (init stored)) in *.
    destruct ev as [k0 m u | i r | token userData | ].
    + split.
      * unfold frames_retried. cbn [step]. unfold dispatch. cbn [wire set_sent set_wire].
        apply Forall_app. split; [exact IHf|]. constructor; [exact I | constructor].
      * unfold load, refreshes_in_flight in *. cbn [step called flat_map].
        unfold dispatch. cbn [wire failedQueue sent set_sent set_wire].
        rewrite !List.filter_app, !length_app.
        match goal with
        | |- context [List.filter is_first_attempt [?x]] =>
            pose proof (List.filter_length_le is_first_attempt [x]) as Hle
        end.
        cbn [List.filter is_refresh awaiting length] in *. lia.
    + cbn [called flat_map length]. destruct (wire st !! i) as [f|] eqn:Hi.
      * pose proof (step_answered st i r f Hwf Hi) as Ha. split.
        -- apply (frames_retried_answered st i f); assumption.
        -- pose proof (load_answered st i f _ Hi Ha IHf). lia.
      * cbn [step]. rewrite Hi. split; [exact IHf | lia].
    + cbn [called flat_map length]. split; [exact IHf|].
      change (load (step st (LoggedIn token userData))) with (load st). lia.
    + cbn [called flat_map length]. split; [exact IHf|].
      change (load (step st LoggedOut)) with (load st). lia.
Qed.

(** X9: However the server answers, at most three requests are sent for each
    request of the application: the request itself, a refresh exchange it
    starts, and the request once more. *)
Theorem at_most_three_requests_per_call
    (stored : gmap string string) (evs : list Event) :
  length (sent (run (init stored) evs)) <= 3 * length (called evs).
Proof.
  destruct (load_reachable stored evs) as [_ H]. unfold load in H. lia.
Qed.

End ClientRuns.

(* ===================================================================== *)
(** * The further properties on the scenarios *)
(* ===================================================================== *)

Section BackendMoreScenarios.
Import Backend BackendScenario.

Lemma emails_stay_unique_witness :
  NoDup (map User.email []) /\
  NoDup (map User.email
           (calls (B := Toy.bcrypt) []
              [Register first_id alice; Register second_id alice])).
Proof.
  assert (H : NoDup (map User.email [])) by constructor.
  split; [exact H|].
  exact (emails_stay_unique (B := Toy.bcrypt)
           [Register first_id alice; Register second_id alice] [] H).
Defined.

Lemma login_success_sound_witness :
  let result :=
    {| user := delete "passwordHash"
                 (toJSON (User.mk "u1" "a@x.com" (String "#"%char "password1") None));
       accessToken :=
         jwt_sign (JwtService := Toy.jwt) (JwtPayload.mk None None "a@x.com" "u1") 1000 |} in
  loginUser (B := Toy.bcrypt) (J := Toy.jwt) users_after_alice 1000
    (LoginUserDto.mk "a@x.com" "password1") = Ok result /\
  user result !! "passwordHash" = None /\
  jwt_decode (JwtService := Toy.jwt) (accessToken result) =
  Some (JwtPayload.mk None (Some 1000) "a@x.com" "u1").
Proof.
  intros result.
  assert (H : loginUser (B := Toy.bcrypt) (J := Toy.jwt) users_after_alice 1000
                (LoginUserDto.mk "a@x.com" "password1") = Ok result) by reflexivity.
  split; [exact H|].
  destruct (login_success_sound (B := Toy.bcrypt) (J := Toy.jwt) (HJ := toy_jwt_spec)
              _ _ _ _ H) as (u & Hf & _ & _ & _ & Hp & _ & Hd).
  split; [exact Hp|].
  assert (Hu : Some u = Some (User.mk "u1" "a@x.com" (String "#"%char "password1") None))
    by (rewrite <- Hf; reflexivity).
  injection Hu as ->. exact Hd.
Defined.

Lemma profile_of_login_token_witness :
  findOne "a@x.com" [] = None /\
  exists result payload,
    loginUser (B := Toy.bcrypt) (J := Toy.jwt) users_after_alice 1000
      (LoginUserDto.mk "a@x.com" "password1") = Ok result /\
    jwt_decode (JwtService := Toy.jwt) (accessToken result) = Some payload /\
    Profile.name (Profile.authenticatedUser (Profile.getProfile payload)) = "N/A".
Proof.
  split; [reflexivity|].
  destruct (profile_of_login_token (B := Toy.bcrypt) (J := Toy.jwt)
              (HB := toy_bcrypt_spec) (HJ := toy_jwt_spec)
              [] first_id alice [] 1000 eq_refl)
    as (result & payload & H1 & H2 & H3).
  exists result, payload. split; [exact H1|]. split; [exact H2|].
  rewrite H3. reflexivity.
Defined.

(** alice's email without a password: login is answered 500, and so is the
    registration of a new email. *)
Lemma missing_password_answers_500_witness :
  In "a@x.com" (map User.email users_after_alice) /\
  ~ In "c@x.com" (map User.email users_after_alice) /\
  status_of POST
    (Untyped.loginUser_body (B := Toy.bcrypt) (J := Toy.jwt) users_after_alice 1000
       {| Untyped.email := "a@x.com"; Untyped.password := None;
          Untyped.name := None |}) = 500 /\
  Untyped.registerUser_body (B := Toy.bcrypt) users_after_alice second_id
    {| Untyped.email := "c@x.com"; Untyped.password := None; Untyped.name := None |} =
  (Err InternalServerError, users_after_alice).
Proof.
  assert (Ha : In "a@x.com" (map User.email users_after_alice))
    by (left; reflexivity).
  assert (Hc : ~ In "c@x.com" (map User.email users_after_alice))
    by (intros [H|[]]; discriminate H).
  split; [exact Ha|]. split; [exact Hc|]. split.
  - destruct (missing_password_answers_500 (B := Toy.bcrypt) (J := Toy.jwt)
                None None users_after_alice second_id 1000 "a@x.com" None)
      as (_ & _ & _ & _ & Hin & _).
    exact (proj2 (proj2 (Hin Ha))).
  - destruct (missing_password_answers_500 (B := Toy.bcrypt) (J := Toy.jwt)
                None None users_after_alice second_id 1000 "c@x.com" None)
      as (_ & _ & _ & Hu & _ & Hout).
    apply injective_projections; [exact (proj1 (Hout Hc)) | exact Hu].
Defined.

End BackendMoreScenarios.

Section ConfigurationScenarios.
Import AppModule.

(** Development, with no MONGO_URI in the environment. *)
Lemma logged_uri_is_connection_iff_set_witness :
  mongooseFactory None None (Some "development") =
    Uri "mongodb://localhost:27017/user_registration" /\
  logged_mongoUri None = "mongodb://localhost:27017/user_db".
Proof.
  assert (H : mongooseFactory None None (Some "development") =
              Uri "mongodb://localhost:27017/user_registration") by reflexivity.
  split; [exact H|].
  exact (proj1 (proj2 (logged_uri_is_connection_iff_set _ _ _ _ H)
                  (or_introl eq_refl))).
Defined.

End ConfigurationScenarios.

Section MessageScenarios.
Import UseMessage.

(** A failed login at 0 ms, a successful one at 4000 ms. *)
Lemma later_message_blanked_early_witness :
  (0 + 5000 <= 5000)%N /\ (5000 < 4000 + 5000)%N /\
  message (elapse 5000
             (displayMessage 4000 "Login successful! Welcome." "success"
                (displayMessage 0 "Login Failed: Invalid credentials" "error" init)))
  = "".
Proof.
  assert (H1 : (0 + 5000 <= 5000)%N) by (vm_compute; discriminate).
  assert (H2 : (5000 < 4000 + 5000)%N) by reflexivity.
  split; [exact H1|]. split; [exact H2|].
  exact (proj1 (later_message_blanked_early init 0 4000 5000
                  "Login Failed: Invalid credentials" "error"
                  "Login successful! Welcome." "success" H1 H2)).
Defined.

End MessageScenarios.

Section ClientMoreScenarios.
Import Client ClientScenario.


(** The refresh exchange of [page_401] is answered without accessToken. *)
Lemma refreshed_token_is_used_witness :
  let exchange :=
    {| request := {| method := "post"; url := "/refresh-token";
                     Authorization := Some "Bearer old"; _retry := false |};
       awaiting := Frame (get "/profile" true) 1 |} in
  let st1 := step page_401 (Respond 0 (Success ∅)) in
  wire page_401 !! 0 = Some exchange /\
  localStorage st1 !! TOKEN_KEY = Some "undefined" /\
  last (sent (step st1 (Call 3 "GET" "/profile"))) =
  Some {| method := "GET"; url := "/profile";
          Authorization := Some "Bearer undefined"; _retry := false |}.
Proof.
  intros exchange st1.
  assert (H : wire page_401 !! 0 = Some exchange) by (vm_compute; reflexivity).
  split; [exact H|].
  destruct (refreshed_token_is_used page_401 0 exchange (get "/profile" true) 1 ∅
              3 "GET" "/profile" H eq_refl) as (H1 & _ & _ & _ & H5).
  split; [exact H1 | exact H5].
Defined.

(** The refresh exchange of [page_401] is answered without accessToken:
    /profile, which started it, and /orders, which was queued, are sent
    again with two different headers. *)
Lemma refresh_without_token_witness :
  let exchange :=
    {| request := {| method := "post"; url := "/refresh-token";
                     Authorization := Some "Bearer old"; _retry := false |};
       awaiting := Frame (get "/profile" true) 1 |} in
  let st' := step page_401 (Respond 0 (Success ∅)) in
  wire page_401 !! 0 = Some exchange /\
  sent st' =
    sent page_401
    ++ [ {| method := "GET"; url := "/profile";
            Authorization := Some "Bearer undefined"; _retry := true |};
         {| method := "GET"; url := "/orders";
            Authorization := Some "Bearer null"; _retry := true |} ].
Proof.
  intros exchange st'.
  assert (H : wire page_401 !! 0 = Some exchange) by (vm_compute; reflexivity).
  split; [exact H|].
  destruct (refresh_without_token page_401 0 exchange (get "/profile" true) 1 ∅
              H eq_refl eq_refl (lookup_empty _)) as (_ & Hs & _).
  exact Hs.
Defined.

(** The user logs out of [page_401] before the refresh is answered. *)
Lemma refresh_after_logout_stores_token_witness :
  let exchange :=
    {| request := {| method := "post"; url := "/refresh-token";
                     Authorization := Some "Bearer old"; _retry := false |};
       awaiting := Frame (get "/profile" true) 1 |} in
  let st2 := step (step page_401 LoggedOut)
                  (Respond 0 (Success {[ "accessToken" := "new" ]})) in
  wire page_401 !! 0 = Some exchange /\
  isAuthenticated st2 = false /\
  localStorage st2 !! TOKEN_KEY = Some "new".
Proof.
  intros exchange st2.
  assert (H : wire page_401 !! 0 = Some exchange) by (vm_compute; reflexivity).
  split; [exact H|].
  destruct (refresh_after_logout_stores_token page_401 0 exchange (get "/profile" true) 1
              {[ "accessToken" := "new" ]} H eq_refl) as (_ & H2 & _ & H4 & _).
  split; [exact H2 | exact H4].
Defined.

End ClientMoreScenarios.
